(** * Netatalk critical fault handling: libatalk/util/fault.c

    A shallow embedding of the fault subsystem (CatchSignal, netatalk_panic,
    fault_report, sig_fault, fault_setup) as programs of a small state and
    abort monad, followed by the properties of the specification that can be
    checked on it.

    The file-static variables (cont_fn, the function-static counter) and the
    process' signal disposition table form the state.  What the code hands to
    its collaborators (LOG calls, the call through cont_fn, sigaction and
    signal calls) is recorded, in order, in a trace. *)

From stdpp Require Import base numbers list strings gmap.

Local Open Scope Z_scope.

(** ** Build configuration *)

(** The preprocessor symbols fault.c branches on.  [SIGSEGV] and [SIGBUS] are
    [None] where <signal.h> does not define them (the [#ifdef SIGSEGV] and
    [#ifdef SIGBUS] guards); [VERSION] comes from config.h.  [signal_mask] and
    [signal_flags] say what the host's signal(2) installs next to the handler,
    which is used only where sigaction is missing. *)
Record Config := {
  HAVE_LIBUNWIND_H : bool;
  HAVE_BACKTRACE : bool;
  HAVE_SIGACTION : bool;
  SIGSEGV : option Z;
  SIGBUS : option Z;
  VERSION : string;
  signal_mask : Z → gset Z;
  signal_flags : Z
}.

(** #define BACKTRACE_STACK_SIZE 64 *)
Definition BACKTRACE_STACK_SIZE : Z := 64.

(** The null pointer, for [cont_fn] and for its context argument. *)
Definition NULL : Z := 0.

(** ** Signal dispositions *)

(** Values of type void ( * )(int): the two special dispositions, the address
    of this file's own handler [sig_fault], or any other function. *)
Inductive sighandler :=
  | SIG_DFL
  | SIG_IGN
  | Ptr_sig_fault
  | Ptr_handler (addr : Z).

(** struct sigaction, with the three members CatchSignal touches. *)
Record sigaction_t := {
  sa_handler : sighandler;
  sa_mask : gset Z;
  sa_flags : Z
}.

(** Modelled from the spec: ZERO_STRUCT(act), a macro of atalk/util.h, which
    is not among the sources.  It clears the struct: the spec has no flag
    forced on the handler, and a cleared sa_handler is SIG_DFL. *)
Definition ZERO_STRUCT : sigaction_t :=
  {| sa_handler := SIG_DFL; sa_mask := ∅; sa_flags := 0 |}.

Definition set_sa_handler (h : sighandler) (act : sigaction_t) : sigaction_t :=
  {| sa_handler := h; sa_mask := sa_mask act; sa_flags := sa_flags act |}.

Definition sigemptyset (act : sigaction_t) : sigaction_t :=
  {| sa_handler := sa_handler act; sa_mask := ∅; sa_flags := sa_flags act |}.

Definition sigaddset (signum : Z) (act : sigaction_t) : sigaction_t :=
  {| sa_handler := sa_handler act;
     sa_mask := {[ signum ]} ∪ sa_mask act;
     sa_flags := sa_flags act |}.

(** ** The logger and the trace *)

(** Modelled from the spec: the severities and log types of atalk/logger.h,
    which is not part of the sources at hand.  The spec names an external
    structured logger with a severe level and printf-style formatting; fault.c
    uses only [log_severe] and [logtype_default]. *)
Inductive loglevel := log_severe | log_level (n : nat).
Inductive logtype := logtype_default | log_type (n : nat).

(** The character the C escape \n stands for, as a one-character string. *)
Definition LF : string := String (Ascii.ascii_of_nat 10) EmptyString.

(** A variadic argument of a LOG call. *)
Inductive Arg :=
  | ArgInt (z : Z)
  | ArgLong (z : Z)
  | ArgStr (str : string).

(** What fault.c does to the outside, in program order. *)
Inductive Event :=
  | EvLOG (lvl : loglevel) (typ : logtype) (fmt : string) (args : list Arg)
  | EvCall (fn : Z) (arg : Z)
  | EvSigaction (signum : Z) (act : sigaction_t)
  | EvSignal (signum : Z) (handler : sighandler).

(** ** The unwinding facilities *)

(** Outcome of unw_get_proc_name for one frame: success returns 0 and copies
    the name into the caller's buffer; failure returns a negative code and
    either leaves the buffer alone ([None]) or leaves something in it
    ([Some], for instance a truncated name). *)
Inductive proc_lookup :=
  | ProcFound (name : string) (off : Z)
  | ProcFailed (err : positive) (wrote : option string).

(** A frame as the libunwind cursor shows it. *)
Record unw_frame := {
  uf_ip : Z;
  uf_sp : Z;
  uf_proc : proc_lookup
}.

(** What the platform shows of the running process when fault.c asks:
    - [pid]: the value of getpid();
    - [unw_callers]: the frames that successive unw_step calls reach from the
      frame of netatalk_panic, innermost first;
    - [return_addresses]: the call stack as backtrace() sees it;
    - [symbol_of]: the string backtrace_symbols gives for an address;
    - [symbols_available]: whether backtrace_symbols returns an array rather
      than NULL. *)
Record Machine := {
  pid : Z;
  unw_callers : list unw_frame;
  return_addresses : list Z;
  symbol_of : Z → string;
  symbols_available : bool
}.

(** ** Process state *)

(** [stamped] is an auxiliary variable and no part of the program, which
    never reads it: it holds the events of [trace] again, each with the value
    [counter] had when the event was made.  It is there to tell in which
    order the counter and the outside world are written to. *)
Record State := {
  counter : Z;                     (* static int counter, in fault_report *)
  cont_fn : Z;                     (* static void ( *cont_fn)(void * ) *)
  sigtab : gmap Z sigaction_t;     (* dispositions the kernel holds *)
  trace : list Event;              (* oldest event first *)
  stamped : list (Z * Event);      (* auxiliary: counter at each event *)
  machine : Machine
}.

(** A signal without an entry has the disposition every process starts
    with. *)
Definition disposition (s : State) (signum : Z) : sigaction_t :=
  default ZERO_STRUCT (sigtab s !! signum).

(** The state a process starts in: statics zeroed, no dispositions set. *)
Definition initial_state (m : Machine) : State :=
  {| counter := 0; cont_fn := NULL; sigtab := ∅; trace := []; stamped := [];
     machine := m |}.

Definition set_counter (c : Z) (s : State) : State :=
  {| counter := c; cont_fn := cont_fn s; sigtab := sigtab s;
     trace := trace s; stamped := stamped s; machine := machine s |}.

Definition set_cont_fn (fn : Z) (s : State) : State :=
  {| counter := counter s; cont_fn := fn; sigtab := sigtab s;
     trace := trace s; stamped := stamped s; machine := machine s |}.

Definition set_sigtab (t : gmap Z sigaction_t) (s : State) : State :=
  {| counter := counter s; cont_fn := cont_fn s; sigtab := t;
     trace := trace s; stamped := stamped s; machine := machine s |}.

Definition set_machine (m : Machine) (s : State) : State :=
  {| counter := counter s; cont_fn := cont_fn s; sigtab := sigtab s;
     trace := trace s; stamped := stamped s; machine := m |}.

Definition emit_all (evs : list Event) (s : State) : State :=
  {| counter := counter s; cont_fn := cont_fn s; sigtab := sigtab s;
     trace := trace s ++ evs;
     stamped := stamped s ++ (pair (counter s) <$> evs);
     machine := machine s |}.

Definition emit (ev : Event) (s : State) : State := emit_all [ev] s.

(** ** The monad: state, plus abort() *)

Inductive Result (A : Type) :=
  | Returns (a : A) (s : State)
  | Aborts (s : State).
Arguments Returns {A} a s.
Arguments Aborts {A} s.

Definition M (A : Type) : Type := State → Result A.

#[global] Instance M_ret : MRet M := λ A a s, Returns a s.

#[global] Instance M_bind : MBind M := λ A B f m s,
  match m s with
  | Returns a s' => f a s'
  | Aborts s' => Aborts s'
  end.

(** The state a computation leaves, however it ends. *)
Definition state_of {A} (r : Result A) : State :=
  match r with Returns _ s => s | Aborts s => s end.

Definition aborted {A} (r : Result A) : bool :=
  match r with Returns _ _ => false | Aborts _ => true end.

(** The events a computation started in [s] appended to the trace. *)
Definition new_events {A} (s : State) (r : Result A) : list Event :=
  drop (length (trace s)) (trace (state_of r)).

(** The same events, each with the value of [counter] it was made at. *)
Definition new_stamped {A} (s : State) (r : Result A) : list (Z * Event) :=
  drop (length (stamped s)) (stamped (state_of r)).

(** abort(): the process ends here; nothing after it runs. *)
Definition abort {A} : M A := λ s, Aborts s.

Definition get {A} (proj : State → A) : M A := λ s, Returns (proj s) s.

Definition modify (f : State → State) : M unit := λ s, Returns () (f s).

(** Modelled from the spec: LOG(level, type, format, ...), a macro of
    atalk/logger.h.  The logger is a collaborator outside fault.c; a call to
    it is recorded as it is made, with its format and arguments. *)
Definition LOG (lvl : loglevel) (typ : logtype) (fmt : string)
    (args : list Arg) : M unit :=
  modify (emit (EvLOG lvl typ fmt args)).

(** sigaction(signum, &act, &oldact) for a signal that can be caught: the
    new disposition replaces the old one, which is handed back.  For a
    number that is no signal, or a signal that cannot be caught, the real
    call fails, installs nothing and leaves oldact unwritten; that case is
    not modelled, as fault.c passes SIGSEGV and SIGBUS only, and what is
    proved of a disposition after the call is proved for those. *)
Definition sigaction (signum : Z) (act : sigaction_t) : M sigaction_t := λ s,
  Returns (disposition s signum)
          (emit (EvSigaction signum act)
                (set_sigtab (<[ signum := act ]> (sigtab s)) s)).

Section Fault.

Variable cfg : Config.

(** What a continuation callback leaves behind when it returns.  The
    function at address [fn], called with [arg] in state [s], can reach
    [cont_fn] (through fault_setup) and the disposition table (through
    fault_setup or sigaction); [counter] is local to fault_report and out of
    its reach.  [callback_effect fn arg s] is the pair it leaves.  What the
    callback does on its own account is not in the trace, which shows the
    call as one event.  A callback that ends the process itself never comes
    back into fault_report; callbacks here are the ones that return. *)
Variable callback_effect : Z → Z → State → Z * gmap Z sigaction_t.

(** signal(signum, handler), where sigaction is missing, for a signal that
    can be caught (for any other number the real call installs nothing and
    returns SIG_ERR; fault.c passes SIGSEGV and SIGBUS only). *)
Definition signal (signum : Z) (handler : sighandler) : M sighandler := λ s,
  Returns (sa_handler (disposition s signum))
          (emit (EvSignal signum handler)
                (set_sigtab
                   (<[ signum := {| sa_handler := handler;
                                    sa_mask := signal_mask cfg signum;
                                    sa_flags := signal_flags cfg |} ]>
                      (sigtab s)) s)).

(** An indirect call fn(arg) to a continuation callback. *)
Definition call (fn arg : Z) : M unit := λ s,
  let after := callback_effect fn arg s in
  Returns () (emit (EvCall fn arg)
                   (set_sigtab after.2 (set_cont_fn after.1 s))).

(** *** CatchSignal *)

Definition CatchSignal (signum : Z) (handler : sighandler) : M sighandler :=
  if HAVE_SIGACTION cfg then
    let act := ZERO_STRUCT in
    let act := set_sa_handler handler act in
    let act := sigemptyset act in
    let act := sigaddset signum act in
    oldact ← sigaction signum act;
    mret (sa_handler oldact)
  else
    signal signum handler.

(** *** netatalk_panic *)

(** The only object a char * of netatalk_panic ever points to is its local
    buffer [symbol]. *)
Inductive char_ptr := addr_symbol.

Definition deref (p : char_ptr) (symbol : string) : string :=
  match p with addr_symbol => symbol end.

(** unw_get_proc_name(&cursor, symbol, sizeof(symbol), &off) at frame [fr]:
    the return value and the contents of [symbol] afterwards. *)
Definition unw_get_proc_name (fr : unw_frame) (symbol : string) : Z * string :=
  match uf_proc fr with
  | ProcFound name _ => (0, name)
  | ProcFailed err wrote => (Z.neg err, default symbol wrote)
  end.

(** (long) w for an unw_word_t, on an LP64 host. *)
Definition cast_long (w : Z) : Z := (w + 2 ^ 63) `mod` 2 ^ 64 - 2 ^ 63.

(** The loop [while (unw_step(&cursor) > 0) { ... }].  [cursor] holds the
    frames still to be stepped to: unw_step succeeds as long as there is
    one.  [symbol], [name] and [count] are the locals of netatalk_panic. *)
Fixpoint unw_loop (cursor : list unw_frame) (symbol : string)
    (name : char_ptr) (count : Z) : M unit :=
  match cursor with
  | [] => mret ()
  | fr :: cursor' =>
      let ip := uf_ip fr in
      let sp := uf_sp fr in
      let '(rc, symbol) := unw_get_proc_name fr symbol in
      let name := if rc =? 0 then addr_symbol else name in
      LOG log_severe logtype_default
          (" #%i ip = %lx, sp = %lx, proc = %s" +:+ LF)
          [ArgInt count; ArgLong (cast_long ip); ArgLong (cast_long sp);
           ArgStr (deref name symbol)];;
      unw_loop cursor' symbol name (count + 1)
  end.

(** backtrace(buffer, size): at most [size] return addresses, innermost
    first. *)
Definition backtrace (m : Machine) (size : Z) : list Z :=
  take (Z.to_nat size) (return_addresses m).

(** backtrace_symbols(buffer, size): one string per address, or NULL. *)
Definition backtrace_symbols (m : Machine) (buffer : list Z)
    : option (list string) :=
  if symbols_available m then Some (symbol_of m <$> buffer) else None.

(** The loop [for (i = 0; i < backtrace_size; i++) LOG(...)], with [fuel]
    iterations left. *)
Fixpoint backtrace_loop (fuel : nat) (i backtrace_size : Z)
    (backtrace_strings : list string) : M unit :=
  match fuel with
  | O => mret ()
  | S fuel' =>
      if i <? backtrace_size then
        LOG log_severe logtype_default " #%u %s"
            [ArgInt i;
             ArgStr (default "" (backtrace_strings !! Z.to_nat i))];;
        backtrace_loop fuel' (i + 1) backtrace_size backtrace_strings
      else mret ()
  end.

Definition netatalk_panic (why : string) : M unit :=
  LOG log_severe logtype_default "PANIC: %s" [ArgStr why];;
  if HAVE_LIBUNWIND_H cfg then
    let symbol := "<unknown>" in
    let name := addr_symbol in
    m ← get machine;
    let cursor := unw_callers m in
    LOG log_severe logtype_default "BACKTRACE:" [];;
    let count := 0 in
    unw_loop cursor symbol name count
  else if HAVE_BACKTRACE cfg then
    m ← get machine;
    let backtrace_stack := backtrace m BACKTRACE_STACK_SIZE in
    let backtrace_size := Z.of_nat (length backtrace_stack) in
    let backtrace_strings := backtrace_symbols m backtrace_stack in
    LOG log_severe logtype_default "BACKTRACE: %d stack frames:"
        [ArgInt backtrace_size];;
    match backtrace_strings with
    | Some strings =>
        backtrace_loop (Z.to_nat backtrace_size) 0 backtrace_size strings
    | None => mret ()
    end
  else
    mret ().

(** *** fault_report, sig_fault, fault_setup *)

(** A statement under [#ifdef SIG...]: compiled in only where the signal
    number is defined. *)
Definition ifdef {A} (sig : option Z) (body : Z → M A) : M unit :=
  match sig with
  | Some signum => body signum;; mret ()
  | None => mret ()
  end.

Definition fault_report (sig : Z) : M unit :=
  c ← get counter;
  (if c =? 0 then mret () else abort);;
  modify (set_counter (c + 1));;
  LOG log_severe logtype_default
      "===============================================================" [];;
  p ← get (pid ∘ machine);
  LOG log_severe logtype_default
      "INTERNAL ERROR: Signal %d in pid %d (%s)"
      [ArgInt sig; ArgInt p; ArgStr (VERSION cfg)];;
  LOG log_severe logtype_default
      "===============================================================" [];;
  netatalk_panic "internal error";;
  fn ← get cont_fn;
  if negb (fn =? NULL) then
    call fn NULL;;
    ifdef (SIGSEGV cfg) (λ signum, CatchSignal signum SIG_DFL);;
    ifdef (SIGBUS cfg) (λ signum, CatchSignal signum SIG_DFL);;
    mret ()
  else
    abort.

Definition sig_fault (sig : Z) : M unit := fault_report sig.

Definition fault_setup (fn : Z) : M unit :=
  modify (set_cont_fn fn);;
  ifdef (SIGSEGV cfg) (λ signum, CatchSignal signum Ptr_sig_fault);;
  ifdef (SIGBUS cfg) (λ signum, CatchSignal signum Ptr_sig_fault).

End Fault.

(** ** The life of a process *)

(** The entry points of fault.c as the rest of the process reaches them:
    the two exported functions, and the kernel delivering a signal to the
    installed handler.  Each call comes with the machine as it is then. *)
Inductive api_call :=
  | Call_fault_setup (fn : Z)
  | Call_netatalk_panic (why : string)
  | Call_sig_fault (sig : Z).

Section Process.

Variable cfg : Config.
Variable callback_effect : Z → Z → State → Z * gmap Z sigaction_t.

Definition do_call (c : api_call) : M unit :=
  match c with
  | Call_fault_setup fn => fault_setup cfg fn
  | Call_netatalk_panic why => netatalk_panic cfg why
  | Call_sig_fault sig => sig_fault cfg callback_effect sig
  end.

(** A run of the process: the calls in order, ended by the first abort. *)
Fixpoint run (calls : list (Machine * api_call)) : M unit :=
  match calls with
  | [] => mret ()
  | (m, c) :: calls' =>
      modify (set_machine m);; do_call c;; run calls'
  end.

End Process.

(** ** Reading the trace *)

Definition is_LOG (fmt : string) (ev : Event) : bool :=
  match ev with
  | EvLOG _ _ f _ => String.eqb f fmt
  | _ => false
  end.

(** An indirect call through cont_fn. *)
Definition is_call (ev : Event) : bool :=
  match ev with EvCall _ _ => true | _ => false end.

(** A change of a signal disposition. *)
Definition is_catch (ev : Event) : bool :=
  match ev with
  | EvSigaction _ _ | EvSignal _ _ => true
  | _ => false
  end.

(** A per-frame line of a backtrace, of either facility. *)
Definition is_frame_line (ev : Event) : bool :=
  is_LOG (" #%i ip = %lx, sp = %lx, proc = %s" +:+ LF) ev
  || is_LOG " #%u %s" ev.

Fixpoint count_if (p : Event → bool) (evs : list Event) : nat :=
  match evs with
  | [] => O
  | ev :: evs' => ((if p ev then 1 else 0) + count_if p evs')%nat
  end.

(** The three lines fault_report opens with. *)
Definition banner (cfg : Config) (sig : Z) (m : Machine) : list Event :=
  [ EvLOG log_severe logtype_default
      "===============================================================" [];
    EvLOG log_severe logtype_default
      "INTERNAL ERROR: Signal %d in pid %d (%s)"
      [ArgInt sig; ArgInt (pid m); ArgStr (VERSION cfg)];
    EvLOG log_severe logtype_default
      "===============================================================" [] ].

(** The event of CatchSignal(signum, handler). *)
Definition catch_event (cfg : Config) (signum : Z) (handler : sighandler)
    : Event :=
  if HAVE_SIGACTION cfg then
    EvSigaction signum
      {| sa_handler := handler; sa_mask := {[ signum ]} ∪ ∅; sa_flags := 0 |}
  else EvSignal signum handler.

Definition catch_events (cfg : Config) (sig : option Z) (handler : sighandler)
    : list Event :=
  match sig with
  | Some signum => [catch_event cfg signum handler]
  | None => []
  end.

(** The lines of the libunwind loop: [unw_loop] without the state. *)
Fixpoint unw_lines (cursor : list unw_frame) (symbol : string) (count : Z)
    : list Event :=
  match cursor with
  | [] => []
  | fr :: cursor' =>
      let symbol' := (unw_get_proc_name fr symbol).2 in
      EvLOG log_severe logtype_default
        (" #%i ip = %lx, sp = %lx, proc = %s" +:+ LF)
        [ArgInt count; ArgLong (cast_long (uf_ip fr));
         ArgLong (cast_long (uf_sp fr)); ArgStr symbol']
      :: unw_lines cursor' symbol' (count + 1)
  end.

(** The lines of the backtrace loop: [backtrace_loop] without the state. *)
Fixpoint bt_lines (fuel : nat) (i backtrace_size : Z)
    (backtrace_strings : list string) : list Event :=
  match fuel with
  | O => []
  | S fuel' =>
      if i <? backtrace_size then
        EvLOG log_severe logtype_default " #%u %s"
          [ArgInt i; ArgStr (default "" (backtrace_strings !! Z.to_nat i))]
        :: bt_lines fuel' (i + 1) backtrace_size backtrace_strings
      else []
  end.

(** Everything netatalk_panic logs, as a function of the configuration, the
    machine and the reason. *)
Definition panic_lines (cfg : Config) (m : Machine) (why : string)
    : list Event :=
  EvLOG log_severe logtype_default "PANIC: %s" [ArgStr why]
  :: (if HAVE_LIBUNWIND_H cfg then
        EvLOG log_severe logtype_default "BACKTRACE:" []
        :: unw_lines (unw_callers m) "<unknown>" 0
      else if HAVE_BACKTRACE cfg then
        let stack := backtrace m BACKTRACE_STACK_SIZE in
        let size := Z.of_nat (length stack) in
        EvLOG log_severe logtype_default "BACKTRACE: %d stack frames:"
          [ArgInt size]
        :: match backtrace_symbols m stack with
           | Some strings => bt_lines (Z.to_nat size) 0 size strings
           | None => []
           end
      else []).

(** ** States and events the proofs name *)

Definition is_log (ev : Event) : bool :=
  match ev with EvLOG _ _ _ _ => true | _ => false end.

(** The disposition CatchSignal(signum, handler) leaves for [signum]. *)
Definition installed (cfg : Config) (signum : Z) (handler : sighandler)
    : sigaction_t :=
  if HAVE_SIGACTION cfg then
    {| sa_handler := handler; sa_mask := {[ signum ]} ∪ ∅; sa_flags := 0 |}
  else
    {| sa_handler := handler; sa_mask := signal_mask cfg signum;
       sa_flags := signal_flags cfg |}.

(** The state after an [#ifdef]-guarded CatchSignal(sig, handler). *)
Definition caught (cfg : Config) (sig : option Z) (handler : sighandler)
    (s : State) : State :=
  match sig with
  | Some signum =>
      emit (catch_event cfg signum handler)
           (set_sigtab (<[ signum := installed cfg signum handler ]> (sigtab s))
                       s)
  | None => s
  end.

(** What fault_report does after its report where a callback is
    registered. *)
Definition continuation_events (cfg : Config) (s : State) : list Event :=
  EvCall (cont_fn s) NULL
  :: catch_events cfg (SIGSEGV cfg) SIG_DFL
  ++ catch_events cfg (SIGBUS cfg) SIG_DFL.

(** The state when fault_report has logged its banner and the backtrace. *)
Definition reported (cfg : Config) (sig : Z) (s : State) : State :=
  emit_all (banner cfg sig (machine s)
            ++ panic_lines cfg (machine s) "internal error")
           (set_counter (counter s + 1) s).

(** The state when the callback has returned as well. *)
Definition continued (cfg : Config)
    (callback_effect : Z → Z → State → Z * gmap Z sigaction_t)
    (sig : Z) (s : State) : State :=
  state_of (call callback_effect (cont_fn s) NULL (reported cfg sig s)).

(** ** Concrete hosts, processes and callbacks *)

(** A host with libunwind, sigaction and both fatal signals. *)
Definition host_libunwind : Config :=
  {| HAVE_LIBUNWIND_H := true; HAVE_BACKTRACE := true;
     HAVE_SIGACTION := true; SIGSEGV := Some 11; SIGBUS := Some 7;
     VERSION := "3.1.12"; signal_mask := λ _, ∅; signal_flags := 0 |}.

(** The same host without libunwind: backtrace() is used. *)
Definition host_backtrace : Config :=
  {| HAVE_LIBUNWIND_H := false; HAVE_BACKTRACE := true;
     HAVE_SIGACTION := true; SIGSEGV := Some 11; SIGBUS := Some 7;
     VERSION := "3.1.12"; signal_mask := λ _, ∅; signal_flags := 0 |}.

(** A host with no unwinding facility and no sigaction. *)
Definition host_bare : Config :=
  {| HAVE_LIBUNWIND_H := false; HAVE_BACKTRACE := false;
     HAVE_SIGACTION := false; SIGSEGV := Some 11; SIGBUS := Some 10;
     VERSION := "3.1.12"; signal_mask := λ _, ∅; signal_flags := 0 |}.

(** A frame whose procedure name resolves, one for which the lookup fails
    (with code 10, UNW_ENOINFO) and leaves the buffer alone, and one for
    which it fails and leaves the empty string in the buffer. *)
Definition frame_named : unw_frame :=
  {| uf_ip := 4198742; uf_sp := 140737488346000;
     uf_proc := ProcFound "dsi_stream_read" 54 |}.

Definition frame_unnamed : unw_frame :=
  {| uf_ip := 4211000; uf_sp := 140737488346112;
     uf_proc := ProcFailed 10 None |}.

Definition frame_emptied : unw_frame :=
  {| uf_ip := 4211000; uf_sp := 140737488346112;
     uf_proc := ProcFailed 10 (Some "") |}.

(** A process two frames deep below netatalk_panic. *)
Definition machine_two_frames : Machine :=
  {| pid := 4242;
     unw_callers := [frame_named; frame_unnamed];
     return_addresses := [4198742; 4211000];
     symbol_of := λ _, "afpd() [0x401156]";
     symbols_available := true |}.

(** A process with a deep stack: 65 callers, 100 return addresses. *)
Definition machine_deep : Machine :=
  {| pid := 4242;
     unw_callers := replicate 65 frame_named;
     return_addresses := replicate 100 4198742;
     symbol_of := λ _, "afpd() [0x401156]";
     symbols_available := true |}.

(** A process whose callers have no names to be found. *)
Definition machine_stripped : Machine :=
  {| pid := 4242;
     unw_callers := [frame_unnamed; frame_unnamed];
     return_addresses := [4211000; 4211000];
     symbol_of := λ _, "afpd() [0x401156]";
     symbols_available := false |}.

(** A callback that returns without touching the fault subsystem. *)
Definition callback_plain : Z → Z → State → Z * gmap Z sigaction_t :=
  λ fn arg s, (cont_fn s, sigtab s).

(** A callback that calls fault_setup on itself before it returns, so that
    sig_fault is the handler of both signals again when it does. *)
Definition callback_reinstalls (cfg : Config)
    : Z → Z → State → Z * gmap Z sigaction_t :=
  λ fn arg s,
    let s' := state_of (fault_setup cfg fn s) in (cont_fn s', sigtab s').

(** The process after fault_setup(fn), started on machine [m]. *)
Definition set_up (cfg : Config) (fn : Z) (m : Machine) : State :=
  state_of (fault_setup cfg fn (initial_state m)).

(** The process after fault_setup(fn) and one fault that was handled. *)
Definition faulted_once (cfg : Config) (fn : Z) (m : Machine) : State :=
  state_of (fault_report cfg callback_plain 11 (set_up cfg fn m)).

(** ** Lines of a report, one by one *)

(** The first line of every report. *)
Definition panic_line (why : string) : Event :=
  EvLOG log_severe logtype_default "PANIC: %s" [ArgStr why].

(** The line of the libunwind loop for frame [fr], numbered [count], with
    [proc] as the procedure name. *)
Definition unw_line (count : Z) (fr : unw_frame) (proc : string) : Event :=
  EvLOG log_severe logtype_default
    (" #%i ip = %lx, sp = %lx, proc = %s" +:+ LF)
    [ArgInt count; ArgLong (cast_long (uf_ip fr));
     ArgLong (cast_long (uf_sp fr)); ArgStr proc].

(** The line of the backtrace loop for entry [i]. *)
Definition bt_line (i : Z) (str : string) : Event :=
  EvLOG log_severe logtype_default " #%u %s" [ArgInt i; ArgStr str].

(** The lookup of the frame's procedure name succeeds. *)
Definition lookup_succeeds (fr : unw_frame) : bool :=
  match uf_proc fr with ProcFound _ _ => true | ProcFailed _ _ => false end.

(** The lookup fails and does not write to the caller's buffer. *)
Definition lookup_leaves_buffer (fr : unw_frame) : bool :=
  match uf_proc fr with ProcFailed _ None => true | _ => false end.

(** The name a successful lookup gives. *)
Definition proc_name_of (fr : unw_frame) : string :=
  match uf_proc fr with ProcFound name _ => name | ProcFailed _ _ => "" end.

(** The contents of the caller's buffer after the lookup for [fr]. *)
Definition buffer_after (symbol : string) (fr : unw_frame) : string :=
  (unw_get_proc_name fr symbol).2.

(** The INTERNAL ERROR line of fault_report, whatever its arguments. *)
Definition is_internal_error : Event → bool :=
  is_LOG "INTERNAL ERROR: Signal %d in pid %d (%s)".

(** ** Basic facts about the state and the monad *)

Lemma emit_all_nil s : emit_all [] s = s.
Proof. destruct s; unfold emit_all; simpl. by rewrite !app_nil_r. Qed.

Lemma emit_all_emit_all evs1 evs2 s :
  emit_all evs2 (emit_all evs1 s) = emit_all (evs1 ++ evs2) s.
Proof. unfold emit_all; simpl. by rewrite fmap_app, !app_assoc. Qed.

Lemma emit_emit_all ev evs s :
  emit_all evs (emit ev s) = emit_all (ev :: evs) s.
Proof. unfold emit. by rewrite emit_all_emit_all. Qed.

Lemma new_events_emit_all {A} (r : Result A) s s0 evs :
  trace s0 = trace s →
  state_of r = emit_all evs s0 →
  new_events s r = evs.
Proof.
  intros Ht Hr. unfold new_events. rewrite Hr. simpl. rewrite Ht.
  by rewrite drop_app_length.
Qed.

Lemma bind_Returns {A B} (m : M A) (f : A → M B) s a s' :
  m s = Returns a s' → (m ≫= f) s = f a s'.
Proof. intros H. unfold mbind, M_bind. by rewrite H. Qed.

Lemma bind_Aborts {A B} (m : M A) (f : A → M B) s s' :
  m s = Aborts s' → (m ≫= f) s = Aborts s'.
Proof. intros H. unfold mbind, M_bind. by rewrite H. Qed.

Lemma LOG_eq lvl typ fmt args s :
  LOG lvl typ fmt args s = Returns () (emit (EvLOG lvl typ fmt args) s).
Proof. reflexivity. Qed.

Lemma count_if_app p evs1 evs2 :
  count_if p (evs1 ++ evs2) = (count_if p evs1 + count_if p evs2)%nat.
Proof. induction evs1 as [|ev evs1 IH]; simpl; [done|]. rewrite IH. lia. Qed.

(** ** netatalk_panic in closed form *)

Section PanicFacts.

Variable cfg : Config.

Lemma unw_loop_eq cursor : ∀ symbol name count s,
  unw_loop cursor symbol name count s
  = Returns () (emit_all (unw_lines cursor symbol count) s).
Proof.
  induction cursor as [|fr cursor IH]; intros symbol name count s; simpl.
  - by rewrite emit_all_nil.
  - destruct (unw_get_proc_name fr symbol) as [rc symbol'] eqn:Hget. simpl.
    erewrite bind_Returns by apply LOG_eq.
    rewrite IH, emit_emit_all.
    by destruct (rc =? 0), name.
Qed.

Lemma backtrace_loop_eq fuel : ∀ i size strings s,
  backtrace_loop fuel i size strings s
  = Returns () (emit_all (bt_lines fuel i size strings) s).
Proof.
  induction fuel as [|fuel IH]; intros i size strings s; simpl.
  - by rewrite emit_all_nil.
  - destruct (i <? size).
    + erewrite bind_Returns by apply LOG_eq.
      by rewrite IH, emit_emit_all.
    + by rewrite emit_all_nil.
Qed.

Lemma netatalk_panic_eq why s :
  netatalk_panic cfg why s
  = Returns () (emit_all (panic_lines cfg (machine s) why) s).
Proof.
  unfold netatalk_panic, panic_lines.
  erewrite bind_Returns by apply LOG_eq.
  destruct (HAVE_LIBUNWIND_H cfg); [|destruct (HAVE_BACKTRACE cfg)].
  - erewrite bind_Returns by reflexivity.
    erewrite bind_Returns by apply LOG_eq.
    by rewrite unw_loop_eq, !emit_emit_all.
  - erewrite bind_Returns by reflexivity.
    erewrite bind_Returns by apply LOG_eq.
    simpl machine.
    destruct (backtrace_symbols _ _).
    + by rewrite backtrace_loop_eq, !emit_emit_all.
    + unfold mret, M_ret, emit. by rewrite emit_all_emit_all.
  - reflexivity.
Qed.

End PanicFacts.

(** ** CatchSignal and fault_report in closed form *)

Section FaultFacts.

Variable cfg : Config.
Variable callback_effect : Z → Z → State → Z * gmap Z sigaction_t.

Lemma installed_handler signum handler :
  sa_handler (installed cfg signum handler) = handler.
Proof. unfold installed. by destruct (HAVE_SIGACTION cfg). Qed.

Lemma CatchSignal_eq signum handler s :
  CatchSignal cfg signum handler s
  = Returns (sa_handler (disposition s signum))
            (caught cfg (Some signum) handler s).
Proof.
  unfold CatchSignal, caught, catch_event, installed.
  by destruct (HAVE_SIGACTION cfg).
Qed.

Lemma ifdef_CatchSignal_eq sig handler s :
  ifdef sig (λ signum, CatchSignal cfg signum handler) s
  = Returns () (caught cfg sig handler s).
Proof.
  destruct sig as [signum|]; [|done]. unfold ifdef.
  erewrite bind_Returns by apply CatchSignal_eq. done.
Qed.

Lemma caught_trace sig handler s :
  trace (caught cfg sig handler s)
  = trace s ++ catch_events cfg sig handler.
Proof. destruct sig; simpl; [done|]. by rewrite app_nil_r. Qed.

Lemma caught_counter sig handler s :
  counter (caught cfg sig handler s) = counter s.
Proof. by destruct sig. Qed.

Lemma fault_report_eq sig s :
  fault_report cfg callback_effect sig s
  = if counter s =? 0 then
      if cont_fn s =? NULL then Aborts (reported cfg sig s)
      else Returns () (caught cfg (SIGBUS cfg) SIG_DFL
                         (caught cfg (SIGSEGV cfg) SIG_DFL
                            (continued cfg callback_effect sig s)))
    else Aborts s.
Proof.
  unfold fault_report.
  erewrite bind_Returns by reflexivity.
  destruct (counter s =? 0) eqn:Hc; [|done].
  erewrite bind_Returns by reflexivity.
  erewrite bind_Returns by reflexivity.
  erewrite bind_Returns by apply LOG_eq.
  erewrite bind_Returns by reflexivity.
  erewrite bind_Returns by apply LOG_eq.
  erewrite bind_Returns by apply LOG_eq.
  erewrite bind_Returns by apply netatalk_panic_eq.
  erewrite bind_Returns by reflexivity.
  unfold emit, compose. rewrite !emit_all_emit_all.
  cbn [cont_fn machine emit_all set_counter app].
  destruct (cont_fn s =? NULL) eqn:Hfn; cbn [negb].
  - done.
  - erewrite bind_Returns by reflexivity.
    erewrite bind_Returns by apply ifdef_CatchSignal_eq.
    erewrite bind_Returns by apply ifdef_CatchSignal_eq.
    done.
Qed.

End FaultFacts.

(** ** Counting lines *)

Lemma count_if_logs p evs :
  forallb is_log evs = true →
  (∀ lvl typ fmt args, p (EvLOG lvl typ fmt args) = false) →
  count_if p evs = O.
Proof.
  intros Hlogs Hp. induction evs as [|ev evs IH]; simpl in *; [done|].
  apply andb_prop in Hlogs as [Hev Hevs].
  destruct ev; try discriminate. rewrite Hp. simpl. auto.
Qed.

Lemma unw_lines_logs cursor : ∀ symbol count,
  forallb is_log (unw_lines cursor symbol count) = true.
Proof. induction cursor; intros; simpl; auto. Qed.

Lemma bt_lines_logs fuel : ∀ i size strings,
  forallb is_log (bt_lines fuel i size strings) = true.
Proof.
  induction fuel; intros; simpl; [done|]. destruct (_ <? _); simpl; auto.
Qed.

Lemma panic_lines_logs cfg m why :
  forallb is_log (panic_lines cfg m why) = true.
Proof.
  unfold panic_lines.
  destruct (HAVE_LIBUNWIND_H cfg); [|destruct (HAVE_BACKTRACE cfg)]; simpl.
  - apply unw_lines_logs.
  - destruct (backtrace_symbols _ _); [apply bt_lines_logs|done].
  - done.
Qed.

Lemma unw_lines_count_LOG fmt cursor : ∀ symbol count,
  count_if (is_LOG fmt) (unw_lines cursor symbol count)
  = if String.eqb (" #%i ip = %lx, sp = %lx, proc = %s" +:+ LF) fmt
    then length cursor else O.
Proof.
  induction cursor as [|fr cursor IH]; intros; simpl unw_lines.
  - by destruct (String.eqb _ _).
  - cbn [count_if is_LOG length]. rewrite IH. by destruct (String.eqb _ _).
Qed.

Lemma bt_lines_length fuel : ∀ i size strings,
  length (bt_lines fuel i size strings)
  = Nat.min fuel (Z.to_nat (size - i)).
Proof.
  induction fuel as [|fuel IH]; intros; cbn [bt_lines length]; [done|].
  destruct (Z.ltb_spec i size); cbn [length].
  - rewrite IH. lia.
  - lia.
Qed.

Lemma bt_lines_count_LOG fmt fuel : ∀ i size strings,
  count_if (is_LOG fmt) (bt_lines fuel i size strings)
  = if String.eqb " #%u %s" fmt
    then length (bt_lines fuel i size strings) else O.
Proof.
  induction fuel as [|fuel IH]; intros; simpl bt_lines.
  - by destruct (String.eqb _ _).
  - destruct (i <? size).
    + cbn [count_if is_LOG length]. rewrite IH. by destruct (String.eqb _ _).
    + by destruct (String.eqb _ _).
Qed.

Lemma unw_lines_frame_lines cursor : ∀ symbol count,
  count_if is_frame_line (unw_lines cursor symbol count) = length cursor.
Proof.
  induction cursor as [|fr cursor IH]; intros; simpl unw_lines; [done|].
  cbn [count_if length]. by rewrite IH.
Qed.

Lemma bt_lines_frame_lines fuel : ∀ i size strings,
  count_if is_frame_line (bt_lines fuel i size strings)
  = length (bt_lines fuel i size strings).
Proof.
  induction fuel as [|fuel IH]; intros; simpl bt_lines; [done|].
  destruct (i <? size); [|done]. cbn [count_if length]. by rewrite IH.
Qed.

Lemma backtrace_length m size :
  length (backtrace m size)
  = Nat.min (Z.to_nat size) (length (return_addresses m)).
Proof. unfold backtrace. apply length_take. Qed.

Lemma not_frame_line lvl typ fmt args :
  String.eqb fmt (" #%i ip = %lx, sp = %lx, proc = %s" +:+ LF) = false →
  String.eqb fmt " #%u %s" = false →
  is_frame_line (EvLOG lvl typ fmt args) = false.
Proof. intros H1 H2. unfold is_frame_line, is_LOG. by rewrite H1, H2. Qed.

(** The frame lines of one backtrace report, by facility. *)
Lemma panic_lines_frame_lines cfg m why :
  count_if is_frame_line (panic_lines cfg m why)
  = if HAVE_LIBUNWIND_H cfg then length (unw_callers m)
    else if HAVE_BACKTRACE cfg then
      if symbols_available m
      then Nat.min 64 (length (return_addresses m)) else O
    else O.
Proof.
  unfold panic_lines.
  destruct (HAVE_LIBUNWIND_H cfg); [|destruct (HAVE_BACKTRACE cfg)].
  - cbn [count_if]. rewrite !not_frame_line by done.
    by rewrite unw_lines_frame_lines.
  - cbn [count_if]. rewrite !not_frame_line by done.
    unfold backtrace_symbols.
    destruct (symbols_available m); [|done].
    rewrite bt_lines_frame_lines, bt_lines_length, backtrace_length.
    change (Z.to_nat BACKTRACE_STACK_SIZE) with 64%nat. lia.
  - done.
Qed.

(** One report holds one PANIC line and no INTERNAL ERROR line. *)
Lemma panic_lines_count_panic cfg m why :
  count_if (is_LOG "PANIC: %s") (panic_lines cfg m why) = 1%nat.
Proof.
  unfold panic_lines.
  destruct (HAVE_LIBUNWIND_H cfg); [|destruct (HAVE_BACKTRACE cfg)].
  - cbn [count_if]. by rewrite unw_lines_count_LOG.
  - cbn [count_if]. destruct (backtrace_symbols _ _); [|done].
    by rewrite bt_lines_count_LOG.
  - done.
Qed.

Lemma panic_lines_count_internal_error cfg m why :
  count_if (is_LOG "INTERNAL ERROR: Signal %d in pid %d (%s)")
           (panic_lines cfg m why) = O.
Proof.
  unfold panic_lines.
  destruct (HAVE_LIBUNWIND_H cfg); [|destruct (HAVE_BACKTRACE cfg)].
  - cbn [count_if]. by rewrite unw_lines_count_LOG.
  - cbn [count_if]. destruct (backtrace_symbols _ _); [|done].
    by rewrite bt_lines_count_LOG.
  - done.
Qed.

(** ** The events of netatalk_panic and of fault_report *)

Lemma continuation_events_count cfg s p :
  (∀ fn arg, p (EvCall fn arg) = false) →
  (∀ signum act, p (EvSigaction signum act) = false) →
  (∀ signum h, p (EvSignal signum h) = false) →
  count_if p (continuation_events cfg s) = O.
Proof.
  intros Hcall Hact Hsig. unfold continuation_events, catch_events, catch_event.
  destruct (SIGSEGV cfg), (SIGBUS cfg), (HAVE_SIGACTION cfg); simpl;
    by rewrite ?Hcall, ?Hact, ?Hsig.
Qed.

Lemma continuation_events_calls cfg s :
  count_if is_call (continuation_events cfg s) = 1%nat.
Proof.
  unfold continuation_events, catch_events, catch_event.
  by destruct (SIGSEGV cfg), (SIGBUS cfg), (HAVE_SIGACTION cfg).
Qed.

Section EventFacts.

Variable cfg : Config.
Variable callback_effect : Z → Z → State → Z * gmap Z sigaction_t.

Lemma netatalk_panic_events why s :
  new_events s (netatalk_panic cfg why s) = panic_lines cfg (machine s) why.
Proof.
  rewrite netatalk_panic_eq. by apply new_events_emit_all with (s0 := s).
Qed.

Lemma fault_report_events sig s :
  new_events s (fault_report cfg callback_effect sig s)
  = if counter s =? 0 then
      (banner cfg sig (machine s)
       ++ panic_lines cfg (machine s) "internal error")
      ++ (if cont_fn s =? NULL then [] else continuation_events cfg s)
    else [].
Proof.
  rewrite fault_report_eq.
  destruct (counter s =? 0); [destruct (cont_fn s =? NULL)|].
  - rewrite app_nil_r.
    by apply new_events_emit_all with (s0 := set_counter (counter s + 1) s).
  - unfold new_events. cbn [state_of]. rewrite !caught_trace.
    unfold continued, reported. cbn [state_of call trace emit emit_all
      set_sigtab set_cont_fn set_counter].
    unfold continuation_events. rewrite <- !app_assoc.
    by rewrite drop_app_length.
  - unfold new_events. cbn [state_of]. apply drop_all.
Qed.

End EventFacts.

(** ** The fault handler *)

Section FaultHandler.

Variable cfg : Config.
Variable callback_effect : Z → Z → State → Z * gmap Z sigaction_t.

(** C1: a reentrant invocation of fault_report (counter greater than zero on
    entry) aborts at once: the state, and with it the trace, is what it was
    on entry, so no banner, no backtrace line and no callback call was
    added. *)
Theorem fault_report_reentrant_aborts sig s :
  0 < counter s →
  fault_report cfg callback_effect sig s = Aborts s
  ∧ new_events s (fault_report cfg callback_effect sig s) = [].
Proof.
  intros Hc. rewrite fault_report_events, fault_report_eq.
  destruct (Z.eqb_spec (counter s) 0); [lia|done].
Qed.

(** C3: a first invocation (counter zero) with no callback registered ends in
    abort; what it added to the trace is the banner followed by the lines of
    netatalk_panic("internal error"), and no call through cont_fn. *)
Theorem fault_report_no_callback_aborts sig s :
  counter s = 0 →
  cont_fn s = NULL →
  aborted (fault_report cfg callback_effect sig s) = true
  ∧ new_events s (fault_report cfg callback_effect sig s)
    = banner cfg sig (machine s)
      ++ new_events s (netatalk_panic cfg "internal error" s)
  ∧ count_if is_call
      (new_events s (fault_report cfg callback_effect sig s)) = O.
Proof.
  intros Hc Hfn.
  rewrite fault_report_events, fault_report_eq, netatalk_panic_events.
  rewrite Hc, Hfn. cbn [Z.eqb NULL aborted]. rewrite app_nil_r.
  split_and!; [done..|].
  apply count_if_logs; [|done].
  rewrite forallb_app. by rewrite panic_lines_logs.
Qed.

(** C2: a first invocation (counter zero) with a callback registered
    returns; after the banner and the backtrace it makes one call through
    cont_fn, with a null argument, then sets the disposition of each fatal
    signal the host defines, and at the end the handler of each of them is
    SIG_DFL, whatever was installed before and whatever the callback
    installed. *)
Theorem fault_report_continuation sig s :
  counter s = 0 →
  cont_fn s ≠ NULL →
  aborted (fault_report cfg callback_effect sig s) = false
  ∧ new_events s (fault_report cfg callback_effect sig s)
    = (banner cfg sig (machine s)
       ++ new_events s (netatalk_panic cfg "internal error" s))
      ++ [EvCall (cont_fn s) NULL]
      ++ catch_events cfg (SIGSEGV cfg) SIG_DFL
      ++ catch_events cfg (SIGBUS cfg) SIG_DFL
  ∧ count_if is_call
      (new_events s (fault_report cfg callback_effect sig s)) = 1%nat
  ∧ ∀ signum,
      SIGSEGV cfg = Some signum ∨ SIGBUS cfg = Some signum →
      sa_handler
        (disposition (state_of (fault_report cfg callback_effect sig s))
                     signum)
      = SIG_DFL.
Proof.
  intros Hc Hfn.
  rewrite fault_report_events, fault_report_eq, netatalk_panic_events.
  rewrite Hc. destruct (Z.eqb_spec (cont_fn s) NULL) as [|_]; [done|].
  cbn [Z.eqb aborted state_of]. split_and!; [done..| |].
  - rewrite count_if_app, continuation_events_calls.
    rewrite count_if_logs; [done| |done].
    rewrite forallb_app. by rewrite panic_lines_logs.
  - intros signum Hsig. unfold disposition, caught.
    destruct (SIGBUS cfg) as [bus|] eqn:Hbus,
             (SIGSEGV cfg) as [segv|] eqn:Hsegv;
      cbn [sigtab emit emit_all set_sigtab].
    + destruct (decide (bus = signum)) as [->|Hne].
      * rewrite lookup_insert_eq. apply installed_handler.
      * rewrite lookup_insert_ne by done.
        destruct Hsig as [[= ->]|[= ->]]; [|done].
        rewrite lookup_insert_eq. apply installed_handler.
    + destruct Hsig as [[=]|[= ->]].
      rewrite lookup_insert_eq. apply installed_handler.
    + destruct Hsig as [[= ->]|[=]].
      rewrite lookup_insert_eq. apply installed_handler.
    + by destruct Hsig.
Qed.

(** C7: a first invocation (counter zero) starts with the banner, the
    INTERNAL ERROR line between two separator lines, followed by the lines of
    one netatalk_panic("internal error"); whatever else it does (the call
    through cont_fn, the CatchSignal calls, the abort) comes after these
    and logs nothing.  The invocation holds one INTERNAL ERROR line and one
    PANIC line. *)
Theorem fault_report_first_reports_once sig s :
  counter s = 0 →
  ∃ actions,
    new_events s (fault_report cfg callback_effect sig s)
    = ([ EvLOG log_severe logtype_default
           "===============================================================" [];
         EvLOG log_severe logtype_default
           "INTERNAL ERROR: Signal %d in pid %d (%s)"
           [ArgInt sig; ArgInt (pid (machine s)); ArgStr (VERSION cfg)];
         EvLOG log_severe logtype_default
           "===============================================================" [] ]
       ++ new_events s (netatalk_panic cfg "internal error" s))
      ++ actions
    ∧ count_if is_log actions = O
    ∧ count_if is_call (new_events s (netatalk_panic cfg "internal error" s))
      = O
    ∧ count_if is_catch (new_events s (netatalk_panic cfg "internal error" s))
      = O
    ∧ count_if (is_LOG "INTERNAL ERROR: Signal %d in pid %d (%s)")
               (new_events s (fault_report cfg callback_effect sig s)) = 1%nat
    ∧ count_if (is_LOG "PANIC: %s")
               (new_events s (fault_report cfg callback_effect sig s))
      = 1%nat
    ∧ count_if (is_LOG "PANIC: %s")
               (new_events s (netatalk_panic cfg "internal error" s))
      = 1%nat.
Proof.
  intros Hc.
  rewrite fault_report_events, netatalk_panic_events, Hc. cbn [Z.eqb].
  set (actions := if cont_fn s =? NULL then [] else continuation_events cfg s).
  assert (Hquiet : ∀ p,
    (∀ fn arg, p (EvCall fn arg) = false) →
    (∀ signum act, p (EvSigaction signum act) = false) →
    (∀ signum h, p (EvSignal signum h) = false) →
    count_if p actions = O).
  { intros p H1 H2 H3. unfold actions.
    destruct (cont_fn s =? NULL); [done|].
    by apply continuation_events_count. }
  exists actions. split_and!.
  - done.
  - by apply Hquiet.
  - apply count_if_logs; [apply panic_lines_logs|done].
  - apply count_if_logs; [apply panic_lines_logs|done].
  - rewrite !count_if_app, panic_lines_count_internal_error.
    by rewrite Hquiet.
  - rewrite !count_if_app, panic_lines_count_panic.
    by rewrite Hquiet.
  - apply panic_lines_count_panic.
Qed.

(** C10: on both paths of fault_report that end in abort, the reentrant one
    (counter not zero) and the one without a callback, the disposition table
    at the abort is the one of entry and no CatchSignal call was made; so a
    change of disposition can only come from the callback path. *)
Theorem fault_report_abort_keeps_dispositions sig s :
  counter s ≠ 0 ∨ cont_fn s = NULL →
  aborted (fault_report cfg callback_effect sig s) = true
  ∧ sigtab (state_of (fault_report cfg callback_effect sig s)) = sigtab s
  ∧ count_if is_catch
      (new_events s (fault_report cfg callback_effect sig s)) = O.
Proof.
  intros Hpath. rewrite fault_report_events, fault_report_eq.
  destruct (Z.eqb_spec (counter s) 0) as [Hc|Hc]; [|done].
  destruct Hpath as [|Hfn]; [done|]. rewrite Hfn. cbn [Z.eqb NULL].
  split_and!; [done..|]. rewrite app_nil_r.
  apply count_if_logs; [|done].
  rewrite forallb_app. by rewrite panic_lines_logs.
Qed.

End FaultHandler.

(** ** The backtrace reporter *)

Section BacktraceReporter.

Variable cfg : Config.
Variable callback_effect : Z → Z → State → Z * gmap Z sigaction_t.

(** C4, amended: the per-frame lines of one netatalk_panic are one per
    caller with libunwind, which has no cap; with backtrace() they are the
    return addresses up to 64, or none where backtrace_symbols gives NULL;
    without a facility there is none.  So they are at most 64 wherever
    libunwind is not compiled in. *)
Theorem netatalk_panic_frame_line_count why s :
  count_if is_frame_line (new_events s (netatalk_panic cfg why s))
  = (if HAVE_LIBUNWIND_H cfg then length (unw_callers (machine s))
     else if HAVE_BACKTRACE cfg then
       if symbols_available (machine s)
       then Nat.min 64 (length (return_addresses (machine s))) else O
     else O)
  ∧ (count_if is_frame_line (new_events s (netatalk_panic cfg why s))
     ≤ if HAVE_LIBUNWIND_H cfg then length (unw_callers (machine s))
       else 64)%nat.
Proof.
  rewrite netatalk_panic_events, panic_lines_frame_lines.
  split; [done|].
  destruct (HAVE_LIBUNWIND_H cfg), (HAVE_BACKTRACE cfg),
    (symbols_available (machine s)); lia.
Qed.

(** C5, amended: with neither facility compiled in, netatalk_panic logs its
    PANIC line and nothing else, and returns. *)
Theorem netatalk_panic_without_unwinder why s :
  HAVE_LIBUNWIND_H cfg = false →
  HAVE_BACKTRACE cfg = false →
  netatalk_panic cfg why s
  = Returns () (emit (EvLOG log_severe logtype_default "PANIC: %s"
                            [ArgStr why]) s)
  ∧ new_events s (netatalk_panic cfg why s)
    = [EvLOG log_severe logtype_default "PANIC: %s" [ArgStr why]].
Proof.
  intros Hunw Hbt.
  rewrite netatalk_panic_events, netatalk_panic_eq.
  unfold panic_lines. by rewrite Hunw, Hbt.
Qed.

(** C9: netatalk_panic returns, and leaves the callback slot, the counter of
    fault_report and the disposition table as they were; a fault_report that
    follows ends (abort or return) as it would have without the call.  The
    same holds after any number of calls. *)
Theorem netatalk_panic_keeps_fault_state why s :
  aborted (netatalk_panic cfg why s) = false
  ∧ cont_fn (state_of (netatalk_panic cfg why s)) = cont_fn s
  ∧ counter (state_of (netatalk_panic cfg why s)) = counter s
  ∧ sigtab (state_of (netatalk_panic cfg why s)) = sigtab s
  ∧ (∀ sig,
       aborted (fault_report cfg callback_effect sig
                  (state_of (netatalk_panic cfg why s)))
       = aborted (fault_report cfg callback_effect sig s))
  ∧ (∀ calls : list (Machine * string),
       let r := run cfg callback_effect
                    (prod_map id Call_netatalk_panic <$> calls) s in
       aborted r = false
       ∧ cont_fn (state_of r) = cont_fn s
       ∧ counter (state_of r) = counter s
       ∧ sigtab (state_of r) = sigtab s).
Proof.
  rewrite netatalk_panic_eq. cbn [aborted state_of].
  split_and!; [done..| |].
  - intros sig. rewrite !fault_report_eq. cbn [counter cont_fn emit_all].
    by destruct (counter s =? 0), (cont_fn s =? NULL).
  - intros calls. revert s.
    induction calls as [|[m reason] calls IH]; intros s0; [done|].
    cbn [fmap list_fmap prod_map fst snd id run do_call].
    erewrite bind_Returns by reflexivity.
    erewrite bind_Returns by apply netatalk_panic_eq.
    cbn zeta in IH. by destruct (IH (emit_all
      (panic_lines cfg (machine (set_machine m s0)) reason)
      (set_machine m s0))) as (-> & -> & -> & ->).
Qed.

End BacktraceReporter.

(** ** The reentrancy counter *)

Section Counter.

Variable cfg : Config.
Variable callback_effect : Z → Z → State → Z * gmap Z sigaction_t.

Lemma fault_setup_eq fn s :
  fault_setup cfg fn s
  = Returns () (caught cfg (SIGBUS cfg) Ptr_sig_fault
                  (caught cfg (SIGSEGV cfg) Ptr_sig_fault (set_cont_fn fn s))).
Proof.
  unfold fault_setup.
  erewrite bind_Returns by reflexivity.
  erewrite bind_Returns by apply ifdef_CatchSignal_eq.
  apply ifdef_CatchSignal_eq.
Qed.

Lemma fault_report_counter sig s :
  counter (state_of (fault_report cfg callback_effect sig s))
  = if counter s =? 0 then 1 else counter s.
Proof.
  rewrite fault_report_eq.
  destruct (Z.eqb_spec (counter s) 0) as [Hc|Hc]; [|done].
  destruct (cont_fn s =? NULL); cbn [state_of].
  - cbn. lia.
  - rewrite !caught_counter. cbn. lia.
Qed.

Lemma do_call_counter c s :
  counter (state_of (do_call cfg callback_effect c s))
  = match c with
    | Call_sig_fault _ => if counter s =? 0 then 1 else counter s
    | _ => counter s
    end.
Proof.
  destruct c as [fn|why|sig]; cbn [do_call].
  - rewrite fault_setup_eq. cbn [state_of]. by rewrite !caught_counter.
  - by rewrite netatalk_panic_eq.
  - apply fault_report_counter.
Qed.

(** A relation between states that every step of a run respects holds
    between the start and the end of the run. *)
Lemma run_respects (R : State → State → Prop) :
  (∀ s, R s s) →
  (∀ s1 s2 s3, R s1 s2 → R s2 s3 → R s1 s3) →
  (∀ m s, R s (set_machine m s)) →
  (∀ c s, R s (state_of (do_call cfg callback_effect c s))) →
  ∀ calls s, R s (state_of (run cfg callback_effect calls s)).
Proof.
  intros Hrefl Htrans Hm Hcall calls.
  induction calls as [|[m c] calls IH]; intros s; cbn [run]; [apply Hrefl|].
  erewrite bind_Returns by reflexivity.
  pose proof (Hcall c (set_machine m s)) as Hstep.
  unfold mbind, M_bind.
  destruct (do_call _ _ c (set_machine m s)) as [[] s'|s']; cbn [state_of] in *.
  - eapply Htrans; [apply Hm|]. eapply Htrans; [apply Hstep|apply IH].
  - eapply Htrans; [apply Hm|apply Hstep].
Qed.

Lemma caught_stamped sig handler s :
  stamped (caught cfg sig handler s)
  = stamped s ++ (pair (counter s) <$> catch_events cfg sig handler).
Proof. destruct sig; simpl; [done|]. by rewrite app_nil_r. Qed.

(** What an invocation of fault_report adds to the trace, it adds with the
    counter one above what it was on entry. *)
Lemma fault_report_stamped sig s :
  stamped (state_of (fault_report cfg callback_effect sig s))
  = stamped s
    ++ (pair (counter s + 1)
        <$> new_events s (fault_report cfg callback_effect sig s)).
Proof.
  rewrite fault_report_events, fault_report_eq.
  destruct (counter s =? 0); [destruct (cont_fn s =? NULL)|];
    cbn [state_of].
  - by rewrite app_nil_r.
  - rewrite !caught_stamped, !caught_counter.
    unfold continued, reported, continuation_events.
    cbn [state_of call stamped counter emit emit_all set_sigtab set_cont_fn
         set_counter].
    rewrite !fmap_app. cbn [fmap list_fmap].
    rewrite <- !app_assoc. by rewrite fmap_app.
  - cbn [fmap list_fmap]. by rewrite app_nil_r.
Qed.

(** C8, amended: the counter starts at 0.  An invocation of fault_report
    that finds it 0 adds one to it, and does so before it logs or unwinds:
    every event the invocation makes, from the first line of the banner on,
    through the report of netatalk_panic, to the callback and the
    CatchSignal calls, is made with the counter already one above what it
    was on entry.  An invocation that finds the counter not 0 aborts and
    leaves it as it is.  No run of the process lowers it, and in a process
    started afresh it is 0 or 1. *)
Theorem counter_discipline :
  (∀ m, counter (initial_state m) = 0)
  ∧ (∀ sig s,
       counter (state_of (fault_report cfg callback_effect sig s))
       = if counter s =? 0 then counter s + 1 else counter s)
  ∧ (∀ sig s,
       new_stamped s (fault_report cfg callback_effect sig s)
       = pair (counter s + 1)
         <$> new_events s (fault_report cfg callback_effect sig s))
  ∧ (∀ sig s,
       aborted (fault_report cfg callback_effect sig s)
       = negb (counter s =? 0) || (cont_fn s =? NULL))
  ∧ (∀ calls s,
       counter s ≤ counter (state_of (run cfg callback_effect calls s)))
  ∧ (∀ calls m,
       0 ≤ counter (state_of (run cfg callback_effect calls (initial_state m)))
         ≤ 1).
Proof.
  split_and!.
  - done.
  - intros sig s. rewrite fault_report_counter.
    destruct (Z.eqb_spec (counter s) 0) as [->|]; done.
  - intros sig s. unfold new_stamped. rewrite fault_report_stamped.
    by rewrite drop_app_length.
  - intros sig s. rewrite fault_report_eq.
    by destruct (counter s =? 0), (cont_fn s =? NULL).
  - apply (run_respects (λ s1 s2, counter s1 ≤ counter s2)).
    + lia.
    + lia.
    + done.
    + intros c s. rewrite do_call_counter.
      destruct c; try lia. destruct (Z.eqb_spec (counter s) 0); lia.
  - intros calls m.
    apply (run_respects
             (λ s1 s2, 0 ≤ counter s1 ≤ 1 → 0 ≤ counter s2 ≤ 1));
      [auto|auto|done| |done].
    intros c s. rewrite do_call_counter.
    destruct c; try done. destruct (counter s =? 0); lia.
Qed.

End Counter.

(** ** The claims at concrete processes *)

(** C6: libunwind, two callers; the name of the first resolves, the lookup
    for the second fails and leaves the buffer alone.  The line of the second
    frame carries the name of the first, not the placeholder: [name] only
    ever points to [symbol], which the successful lookup overwrote. *)
Example failed_lookup_logs_stale_name :
  new_events (initial_state machine_two_frames)
    (netatalk_panic host_libunwind "internal error"
       (initial_state machine_two_frames))
  = [ EvLOG log_severe logtype_default "PANIC: %s"
        [ArgStr "internal error"];
      EvLOG log_severe logtype_default "BACKTRACE:" [];
      EvLOG log_severe logtype_default
        (" #%i ip = %lx, sp = %lx, proc = %s" +:+ LF)
        [ArgInt 0; ArgLong 4198742; ArgLong 140737488346000;
         ArgStr "dsi_stream_read"];
      EvLOG log_severe logtype_default
        (" #%i ip = %lx, sp = %lx, proc = %s" +:+ LF)
        [ArgInt 1; ArgLong 4211000; ArgLong 140737488346112;
         ArgStr "dsi_stream_read"] ].
Proof. vm_compute. reflexivity. Qed.

(** Where the very first lookup fails and leaves the buffer alone, the
    initial contents of [symbol] are what is logged. *)
Example first_failed_lookup_logs_placeholder :
  unw_lines [frame_unnamed] "<unknown>" 0
  = [ EvLOG log_severe logtype_default
        (" #%i ip = %lx, sp = %lx, proc = %s" +:+ LF)
        [ArgInt 0; ArgLong 4211000; ArgLong 140737488346112;
         ArgStr "<unknown>"] ].
Proof. vm_compute. reflexivity. Qed.

(** Where a failed lookup leaves the empty string behind, that is what is
    logged, first frame or not. *)
Example failed_lookup_logs_what_it_left :
  unw_lines [frame_emptied] "<unknown>" 0
  = [ EvLOG log_severe logtype_default
        (" #%i ip = %lx, sp = %lx, proc = %s" +:+ LF)
        [ArgInt 0; ArgLong 4211000; ArgLong 140737488346112; ArgStr ""] ].
Proof. vm_compute. reflexivity. Qed.

(** C4 as stated fails: with libunwind and 65 callers, one netatalk_panic
    logs 65 per-frame lines. *)
Lemma libunwind_logs_65_frame_lines :
  ¬ (count_if is_frame_line
       (new_events (initial_state machine_deep)
          (netatalk_panic host_libunwind "internal error"
             (initial_state machine_deep))) ≤ 64)%nat.
Proof. vm_compute. lia. Qed.

(** C5 as stated fails: on a host without an unwinding facility, no line
    follows the PANIC line. *)
Lemma no_unwinder_no_notice :
  ¬ ∃ notice,
      new_events (initial_state machine_two_frames)
        (netatalk_panic host_bare "internal error"
           (initial_state machine_two_frames))
      = [ EvLOG log_severe logtype_default "PANIC: %s"
            [ArgStr "internal error"];
          notice ].
Proof. intros [notice H]. vm_compute in H. discriminate H. Qed.

(** C8 as stated fails: an invocation that finds the counter at 1 does not
    add one to it. *)
Lemma reentrant_invocation_no_increment :
  counter (faulted_once host_libunwind 5000 machine_two_frames) = 1
  ∧ counter (state_of (fault_report host_libunwind callback_plain 11
                         (faulted_once host_libunwind 5000
                            machine_two_frames)))
    ≠ counter (faulted_once host_libunwind 5000 machine_two_frames) + 1.
Proof. vm_compute. split; [reflexivity|discriminate]. Qed.

(** C1 at a process that has handled one fault already. *)
Lemma fault_report_reentrant_aborts_witness :
  0 < counter (faulted_once host_libunwind 5000 machine_two_frames)
  ∧ (fault_report host_libunwind callback_plain 11
       (faulted_once host_libunwind 5000 machine_two_frames)
     = Aborts (faulted_once host_libunwind 5000 machine_two_frames)
     ∧ new_events (faulted_once host_libunwind 5000 machine_two_frames)
         (fault_report host_libunwind callback_plain 11
            (faulted_once host_libunwind 5000 machine_two_frames))
       = []).
Proof.
  split; [reflexivity|].
  apply (fault_report_reentrant_aborts host_libunwind callback_plain 11
           (faulted_once host_libunwind 5000 machine_two_frames)).
  reflexivity.
Defined.

(** C3 at a process set up with a null callback, on a bus error. *)
Lemma fault_report_no_callback_aborts_witness :
  counter (set_up host_backtrace NULL machine_two_frames) = 0
  ∧ cont_fn (set_up host_backtrace NULL machine_two_frames) = NULL
  ∧ (aborted (fault_report host_backtrace callback_plain 7
                (set_up host_backtrace NULL machine_two_frames)) = true
     ∧ new_events (set_up host_backtrace NULL machine_two_frames)
         (fault_report host_backtrace callback_plain 7
            (set_up host_backtrace NULL machine_two_frames))
       = banner host_backtrace 7
           (machine (set_up host_backtrace NULL machine_two_frames))
         ++ new_events (set_up host_backtrace NULL machine_two_frames)
              (netatalk_panic host_backtrace "internal error"
                 (set_up host_backtrace NULL machine_two_frames))
     ∧ count_if is_call
         (new_events (set_up host_backtrace NULL machine_two_frames)
            (fault_report host_backtrace callback_plain 7
               (set_up host_backtrace NULL machine_two_frames))) = O).
Proof.
  split; [reflexivity|split; [reflexivity|]].
  apply (fault_report_no_callback_aborts host_backtrace callback_plain 7
           (set_up host_backtrace NULL machine_two_frames));
    reflexivity.
Defined.

(** C2 at a process whose callback installs sig_fault again before it
    returns: SIG_DFL is what both signals end with all the same. *)
Lemma fault_report_continuation_witness :
  counter (set_up host_libunwind 5000 machine_two_frames) = 0
  ∧ cont_fn (set_up host_libunwind 5000 machine_two_frames) ≠ NULL
  ∧ (aborted (fault_report host_libunwind
                (callback_reinstalls host_libunwind) 11
                (set_up host_libunwind 5000 machine_two_frames)) = false
     ∧ new_events (set_up host_libunwind 5000 machine_two_frames)
         (fault_report host_libunwind (callback_reinstalls host_libunwind) 11
            (set_up host_libunwind 5000 machine_two_frames))
       = (banner host_libunwind 11
            (machine (set_up host_libunwind 5000 machine_two_frames))
          ++ new_events (set_up host_libunwind 5000 machine_two_frames)
               (netatalk_panic host_libunwind "internal error"
                  (set_up host_libunwind 5000 machine_two_frames)))
         ++ [EvCall (cont_fn (set_up host_libunwind 5000 machine_two_frames))
                    NULL]
         ++ catch_events host_libunwind (SIGSEGV host_libunwind) SIG_DFL
         ++ catch_events host_libunwind (SIGBUS host_libunwind) SIG_DFL
     ∧ count_if is_call
         (new_events (set_up host_libunwind 5000 machine_two_frames)
            (fault_report host_libunwind
               (callback_reinstalls host_libunwind) 11
               (set_up host_libunwind 5000 machine_two_frames))) = 1%nat
     ∧ ∀ signum,
         SIGSEGV host_libunwind = Some signum
         ∨ SIGBUS host_libunwind = Some signum →
         sa_handler
           (disposition
              (state_of
                 (fault_report host_libunwind
                    (callback_reinstalls host_libunwind) 11
                    (set_up host_libunwind 5000 machine_two_frames)))
              signum)
         = SIG_DFL).
Proof.
  split; [reflexivity|split; [discriminate|]].
  apply (fault_report_continuation host_libunwind
           (callback_reinstalls host_libunwind) 11
           (set_up host_libunwind 5000 machine_two_frames));
    [reflexivity|discriminate].
Defined.

(** C7 at a process set up with a callback, on a segmentation violation. *)
Lemma fault_report_first_reports_once_witness :
  counter (set_up host_libunwind 5000 machine_two_frames) = 0
  ∧ ∃ actions,
      new_events (set_up host_libunwind 5000 machine_two_frames)
        (fault_report host_libunwind callback_plain 11
           (set_up host_libunwind 5000 machine_two_frames))
      = ([ EvLOG log_severe logtype_default
             "===============================================================" [];
           EvLOG log_severe logtype_default
             "INTERNAL ERROR: Signal %d in pid %d (%s)"
             [ArgInt 11;
              ArgInt (pid (machine (set_up host_libunwind 5000
                                      machine_two_frames)));
              ArgStr (VERSION host_libunwind)];
           EvLOG log_severe logtype_default
             "===============================================================" [] ]
         ++ new_events (set_up host_libunwind 5000 machine_two_frames)
              (netatalk_panic host_libunwind "internal error"
                 (set_up host_libunwind 5000 machine_two_frames)))
        ++ actions
      ∧ count_if is_log actions = O
      ∧ count_if is_call
          (new_events (set_up host_libunwind 5000 machine_two_frames)
             (netatalk_panic host_libunwind "internal error"
                (set_up host_libunwind 5000 machine_two_frames))) = O
      ∧ count_if is_catch
          (new_events (set_up host_libunwind 5000 machine_two_frames)
             (netatalk_panic host_libunwind "internal error"
                (set_up host_libunwind 5000 machine_two_frames))) = O
      ∧ count_if (is_LOG "INTERNAL ERROR: Signal %d in pid %d (%s)")
          (new_events (set_up host_libunwind 5000 machine_two_frames)
             (fault_report host_libunwind callback_plain 11
                (set_up host_libunwind 5000 machine_two_frames))) = 1%nat
      ∧ count_if (is_LOG "PANIC: %s")
          (new_events (set_up host_libunwind 5000 machine_two_frames)
             (fault_report host_libunwind callback_plain 11
                (set_up host_libunwind 5000 machine_two_frames))) = 1%nat
      ∧ count_if (is_LOG "PANIC: %s")
          (new_events (set_up host_libunwind 5000 machine_two_frames)
             (netatalk_panic host_libunwind "internal error"
                (set_up host_libunwind 5000 machine_two_frames))) = 1%nat.
Proof.
  split; [reflexivity|].
  apply (fault_report_first_reports_once host_libunwind callback_plain 11
           (set_up host_libunwind 5000 machine_two_frames)).
  reflexivity.
Defined.

(** C10 at a process set up with a null callback on a host without
    sigaction: sig_fault is still installed when the process aborts. *)
Lemma fault_report_abort_keeps_dispositions_witness :
  (counter (set_up host_bare NULL machine_two_frames) ≠ 0
   ∨ cont_fn (set_up host_bare NULL machine_two_frames) = NULL)
  ∧ (aborted (fault_report host_bare callback_plain 10
                (set_up host_bare NULL machine_two_frames)) = true
     ∧ sigtab (state_of (fault_report host_bare callback_plain 10
                           (set_up host_bare NULL machine_two_frames)))
       = sigtab (set_up host_bare NULL machine_two_frames)
     ∧ count_if is_catch
         (new_events (set_up host_bare NULL machine_two_frames)
            (fault_report host_bare callback_plain 10
               (set_up host_bare NULL machine_two_frames))) = O).
Proof.
  split; [right; reflexivity|].
  apply (fault_report_abort_keeps_dispositions host_bare callback_plain 10
           (set_up host_bare NULL machine_two_frames)).
  right. reflexivity.
Defined.

(** C5, amended, on a host with no unwinding facility. *)
Lemma netatalk_panic_without_unwinder_witness :
  HAVE_LIBUNWIND_H host_bare = false
  ∧ HAVE_BACKTRACE host_bare = false
  ∧ (netatalk_panic host_bare "out of memory"
       (initial_state machine_two_frames)
     = Returns () (emit (EvLOG log_severe logtype_default "PANIC: %s"
                               [ArgStr "out of memory"])
                        (initial_state machine_two_frames))
     ∧ new_events (initial_state machine_two_frames)
         (netatalk_panic host_bare "out of memory"
            (initial_state machine_two_frames))
       = [EvLOG log_severe logtype_default "PANIC: %s"
                [ArgStr "out of memory"]]).
Proof.
  split; [reflexivity|split; [reflexivity|]].
  apply (netatalk_panic_without_unwinder host_bare "out of memory"
           (initial_state machine_two_frames));
    reflexivity.
Defined.

(** ** The signal installer *)

Section SignalInstaller.

Variable cfg : Config.

Lemma caught_disposition signum handler other s :
  disposition (caught cfg (Some signum) handler s) other
  = if decide (signum = other) then installed cfg signum handler
    else disposition s other.
Proof.
  unfold disposition. cbn [caught sigtab emit emit_all set_sigtab].
  rewrite lookup_insert. by case_decide.
Qed.

Lemma caught_None handler s : caught cfg None handler s = s.
Proof. reflexivity. Qed.

Lemma caught_cont_fn sig handler s :
  cont_fn (caught cfg sig handler s) = cont_fn s.
Proof. by destruct sig. Qed.

Lemma caught_machine sig handler s :
  machine (caught cfg sig handler s) = machine s.
Proof. by destruct sig. Qed.

Lemma catch_events_count p sig handler :
  (∀ signum act, p (EvSigaction signum act) = false) →
  (∀ signum h, p (EvSignal signum h) = false) →
  count_if p (catch_events cfg sig handler) = O.
Proof.
  intros Hact Hsig. unfold catch_events, catch_event.
  destruct sig, (HAVE_SIGACTION cfg); simpl; by rewrite ?Hact, ?Hsig.
Qed.

(** X1: for a fatal signal of the host, CatchSignal hands back the handler
    the signal had; a second CatchSignal for the same signal hands back the
    handler the first one installed, and installing the same handler twice
    leaves the table as installing it once does. *)
Theorem CatchSignal_returns_previous signum h1 h2 s :
  SIGSEGV cfg = Some signum ∨ SIGBUS cfg = Some signum →
  (∃ s1, CatchSignal cfg signum h1 s
         = Returns (sa_handler (disposition s signum)) s1)
  ∧ (∃ s2, (CatchSignal cfg signum h1;; CatchSignal cfg signum h2) s
           = Returns h1 s2)
  ∧ sigtab (state_of
              ((CatchSignal cfg signum h1;; CatchSignal cfg signum h1) s))
    = sigtab (state_of (CatchSignal cfg signum h1 s)).
Proof.
  intros _. split_and!.
  - rewrite CatchSignal_eq. by eexists.
  - erewrite bind_Returns by apply CatchSignal_eq.
    rewrite CatchSignal_eq, caught_disposition, decide_True by done.
    rewrite installed_handler. by eexists.
  - erewrite bind_Returns by apply CatchSignal_eq.
    rewrite !CatchSignal_eq.
    cbn [state_of caught sigtab emit emit_all set_sigtab].
    apply insert_insert_eq.
Qed.

(** X2: CatchSignal for one signal leaves the disposition of every other
    signal, the callback slot and the counter alone, and makes one call to
    sigaction (or signal) and no other. *)
Theorem CatchSignal_leaves_other_signals signum handler other s :
  other ≠ signum →
  disposition (state_of (CatchSignal cfg signum handler s)) other
  = disposition s other
  ∧ cont_fn (state_of (CatchSignal cfg signum handler s)) = cont_fn s
  ∧ counter (state_of (CatchSignal cfg signum handler s)) = counter s
  ∧ new_events s (CatchSignal cfg signum handler s)
    = [catch_event cfg signum handler].
Proof.
  intros Hne. rewrite CatchSignal_eq. cbn [state_of].
  rewrite caught_disposition, decide_False by done.
  split_and!; [done..|].
  by apply new_events_emit_all
    with (s0 := set_sigtab (<[signum:=installed cfg signum handler]> (sigtab s))
                           s).
Qed.

(** X3: where sigaction exists, the disposition CatchSignal installs for a
    fatal signal of the host has the given handler, blocks the caught signal
    and no other while the handler runs, and has no flag set (so no restart
    of system calls and no reset of the handler after its first call). *)
Theorem CatchSignal_blocks_its_signal signum handler s :
  HAVE_SIGACTION cfg = true →
  SIGSEGV cfg = Some signum ∨ SIGBUS cfg = Some signum →
  disposition (state_of (CatchSignal cfg signum handler s)) signum
  = {| sa_handler := handler; sa_mask := {[ signum ]}; sa_flags := 0 |}.
Proof.
  intros Hsa _. rewrite CatchSignal_eq. cbn [state_of].
  rewrite caught_disposition, decide_True by done.
  unfold installed. rewrite Hsa. by rewrite union_empty_r_L.
Qed.

(** X4: fault_setup returns, stores its argument in the callback slot
    whatever was there, and leaves sig_fault as the handler of each fatal
    signal the host defines. *)
Theorem fault_setup_installs fn signum s :
  SIGSEGV cfg = Some signum ∨ SIGBUS cfg = Some signum →
  aborted (fault_setup cfg fn s) = false
  ∧ cont_fn (state_of (fault_setup cfg fn s)) = fn
  ∧ sa_handler (disposition (state_of (fault_setup cfg fn s)) signum)
    = Ptr_sig_fault.
Proof.
  intros Hsig. rewrite fault_setup_eq. cbn [aborted state_of].
  split_and!; [done|by rewrite !caught_cont_fn|].
  destruct (SIGBUS cfg) as [bus|] eqn:Hbus,
           (SIGSEGV cfg) as [segv|] eqn:Hsegv.
  - rewrite caught_disposition. case_decide; [apply installed_handler|].
    destruct Hsig as [[= ->]|[= ->]]; [|done].
    rewrite caught_disposition, decide_True by done. apply installed_handler.
  - destruct Hsig as [[=]|[= ->]].
    rewrite caught_disposition, decide_True by done. apply installed_handler.
  - destruct Hsig as [[= ->]|[=]]. rewrite caught_None.
    rewrite caught_disposition, decide_True by done. apply installed_handler.
  - by destruct Hsig.
Qed.

(** X5: fault_setup leaves the disposition of every signal that is not one
    of the two fatal ones alone, does not touch the counter of fault_report,
    and logs nothing. *)
Theorem fault_setup_leaves_the_rest fn signum s :
  SIGSEGV cfg ≠ Some signum →
  SIGBUS cfg ≠ Some signum →
  disposition (state_of (fault_setup cfg fn s)) signum = disposition s signum
  ∧ counter (state_of (fault_setup cfg fn s)) = counter s
  ∧ count_if is_log (new_events s (fault_setup cfg fn s)) = O.
Proof.
  intros Hsegv Hbus. rewrite fault_setup_eq. cbn [state_of].
  split_and!.
  - destruct (SIGBUS cfg) as [bus|] eqn:?, (SIGSEGV cfg) as [segv|] eqn:?;
      rewrite ?caught_None, ?caught_disposition;
      repeat case_decide; done || congruence.
  - by rewrite !caught_counter.
  - unfold new_events. cbn [state_of]. rewrite !caught_trace.
    cbn [trace set_cont_fn]. rewrite <- app_assoc, drop_app_length.
    rewrite count_if_app. by rewrite !catch_events_count.
Qed.

(** X6: of two fault_setup calls the later one decides: the callback slot
    holds its argument, and the disposition table is the one a single call
    gives. *)
Theorem fault_setup_last_wins fn1 fn2 s :
  cont_fn (state_of ((fault_setup cfg fn1;; fault_setup cfg fn2) s)) = fn2
  ∧ sigtab (state_of ((fault_setup cfg fn1;; fault_setup cfg fn2) s))
    = sigtab (state_of (fault_setup cfg fn2 s)).
Proof.
  erewrite bind_Returns by apply fault_setup_eq.
  rewrite !fault_setup_eq. cbn [state_of].
  split; [by rewrite !caught_cont_fn|].
  destruct (SIGBUS cfg) as [bus|], (SIGSEGV cfg) as [segv|];
    cbn [caught sigtab emit emit_all set_sigtab set_cont_fn]; try done.
  - apply map_eq. intros i. rewrite !lookup_insert.
    by repeat case_decide.
  - apply insert_insert_eq.
  - apply insert_insert_eq.
Qed.

End SignalInstaller.

(** ** The lines of a report *)

Section ReportLines.

Variable cfg : Config.

Lemma unw_lines_all_named cursor : ∀ symbol count,
  forallb lookup_succeeds cursor = true →
  unw_lines cursor symbol count
  = imap (λ i fr, unw_line (count + Z.of_nat i) fr (proc_name_of fr)) cursor.
Proof.
  induction cursor as [|fr cursor IH]; intros symbol count Hall; [done|].
  cbn [forallb] in Hall. apply andb_prop in Hall as [Hfr Hall].
  cbn [unw_lines imap]. f_equal.
  - unfold unw_line, unw_get_proc_name, proc_name_of, lookup_succeeds in *.
    destruct (uf_proc fr); [|done]. cbn [snd]. by rewrite Z.add_0_r.
  - rewrite IH by done. apply imap_ext. intros i fr' _. cbn [compose].
    f_equal. lia.
Qed.

Lemma unw_lines_none_named cursor : ∀ symbol count,
  forallb lookup_leaves_buffer cursor = true →
  unw_lines cursor symbol count
  = imap (λ i fr, unw_line (count + Z.of_nat i) fr symbol) cursor.
Proof.
  induction cursor as [|fr cursor IH]; intros symbol count Hall; [done|].
  cbn [forallb] in Hall. apply andb_prop in Hall as [Hfr Hall].
  assert (Hsame : (unw_get_proc_name fr symbol).2 = symbol).
  { unfold unw_get_proc_name, lookup_leaves_buffer in *.
    by destruct (uf_proc fr) as [|err [|]]. }
  cbn [unw_lines imap]. rewrite Hsame. f_equal.
  - unfold unw_line. by rewrite Z.add_0_r.
  - rewrite IH by done. apply imap_ext. intros i fr' _. cbn [compose].
    f_equal. lia.
Qed.

Lemma bt_lines_imap (f : Z → string) suf : ∀ pre,
  bt_lines (length suf) (Z.of_nat (length pre))
           (Z.of_nat (length (pre ++ suf))) (f <$> pre ++ suf)
  = imap (λ j addr, bt_line (Z.of_nat (length pre + j)) (f addr)) suf.
Proof.
  induction suf as [|addr suf IH]; intros pre; [done|].
  cbn [length bt_lines imap].
  destruct (Z.ltb_spec (Z.of_nat (length pre))
                       (Z.of_nat (length (pre ++ addr :: suf)))) as [_|Hge].
  2: { rewrite length_app in Hge. cbn [length] in Hge. lia. }
  rewrite Nat2Z.id, list_lookup_fmap, list_lookup_middle by done.
  cbn [fmap option_fmap option_map default]. unfold bt_line at 1.
  rewrite Nat.add_0_r. f_equal.
  specialize (IH (pre ++ [addr])). rewrite <- app_assoc in IH.
  cbn [app] in IH. rewrite length_app in IH. cbn [length] in IH.
  replace (Z.of_nat (length pre) + 1) with (Z.of_nat (length pre + 1)) by lia.
  rewrite IH. apply imap_ext. intros j addr' _. cbn [compose].
  f_equal. lia.
Qed.

(** X7: with backtrace() as the facility and symbols at hand, a report is
    the PANIC line, a header with the number of frames, which is the depth
    of the stack or 64 if that is less, and then one line per return
    address, innermost first, numbered from 0, each with the string
    backtrace_symbols gave for that address. *)
Theorem netatalk_panic_backtrace_report why s :
  HAVE_LIBUNWIND_H cfg = false →
  HAVE_BACKTRACE cfg = true →
  symbols_available (machine s) = true →
  new_events s (netatalk_panic cfg why s)
  = panic_line why
    :: EvLOG log_severe logtype_default "BACKTRACE: %d stack frames:"
         [ArgInt (Z.of_nat
                    (Nat.min 64 (length (return_addresses (machine s)))))]
    :: imap (λ i addr,
               bt_line (Z.of_nat i) (symbol_of (machine s) addr))
            (take 64 (return_addresses (machine s))).
Proof.
  intros Hunw Hbt Hsym. rewrite netatalk_panic_events.
  unfold panic_lines, backtrace_symbols. rewrite Hunw, Hbt, Hsym.
  unfold backtrace. change (Z.to_nat BACKTRACE_STACK_SIZE) with 64%nat.
  cbn zeta. rewrite length_take, Nat2Z.id.
  f_equal. f_equal.
  pose proof (bt_lines_imap (symbol_of (machine s))
                (take 64 (return_addresses (machine s))) []) as Hlines.
  cbn [length app Nat.add] in Hlines. change (Z.of_nat 0) with 0 in Hlines.
  rewrite length_take in Hlines. exact Hlines.
Qed.

(** X8: with backtrace() as the facility and no symbols (backtrace_symbols
    gave NULL), a report is the PANIC line and the header with the number of
    frames, and no frame line. *)
Theorem netatalk_panic_backtrace_no_symbols why s :
  HAVE_LIBUNWIND_H cfg = false →
  HAVE_BACKTRACE cfg = true →
  symbols_available (machine s) = false →
  new_events s (netatalk_panic cfg why s)
  = [ panic_line why;
      EvLOG log_severe logtype_default "BACKTRACE: %d stack frames:"
        [ArgInt (Z.of_nat
                   (Nat.min 64 (length (return_addresses (machine s)))))] ].
Proof.
  intros Hunw Hbt Hsym. rewrite netatalk_panic_events.
  unfold panic_lines, backtrace_symbols. rewrite Hunw, Hbt, Hsym.
  unfold backtrace. change (Z.to_nat BACKTRACE_STACK_SIZE) with 64%nat.
  cbn zeta. by rewrite length_take.
Qed.

(** X9: with libunwind, where the name of every caller resolves, a report is
    the PANIC line, the BACKTRACE line, and one line per caller, innermost
    first, numbered from 0, with the instruction pointer, the stack pointer
    and the name of that caller. *)
Theorem netatalk_panic_unwind_report why s :
  HAVE_LIBUNWIND_H cfg = true →
  forallb lookup_succeeds (unw_callers (machine s)) = true →
  new_events s (netatalk_panic cfg why s)
  = panic_line why
    :: EvLOG log_severe logtype_default "BACKTRACE:" []
    :: imap (λ i fr, unw_line (Z.of_nat i) fr (proc_name_of fr))
            (unw_callers (machine s)).
Proof.
  intros Hunw Hall. rewrite netatalk_panic_events.
  unfold panic_lines. rewrite Hunw.
  by rewrite unw_lines_all_named.
Qed.

(** X10: with libunwind, where no lookup of a name succeeds and none writes
    to the buffer, every caller is logged with the placeholder the buffer
    starts with. *)
Theorem netatalk_panic_unwind_placeholder why s :
  HAVE_LIBUNWIND_H cfg = true →
  forallb lookup_leaves_buffer (unw_callers (machine s)) = true →
  new_events s (netatalk_panic cfg why s)
  = panic_line why
    :: EvLOG log_severe logtype_default "BACKTRACE:" []
    :: imap (λ i fr, unw_line (Z.of_nat i) fr "<unknown>")
            (unw_callers (machine s)).
Proof.
  intros Hunw Hall. rewrite netatalk_panic_events.
  unfold panic_lines. rewrite Hunw.
  by rewrite unw_lines_none_named.
Qed.

Lemma unw_lines_imap cursor : ∀ symbol count,
  unw_lines cursor symbol count
  = imap (λ i fr,
            unw_line (count + Z.of_nat i) fr
              (foldl buffer_after symbol (take (S i) cursor)))
         cursor.
Proof.
  induction cursor as [|fr cursor IH]; intros symbol count; [done|].
  cbn [unw_lines imap]. f_equal.
  - unfold unw_line. by rewrite Z.add_0_r.
  - rewrite IH. apply imap_ext. intros i fr' _. cbn [compose].
    unfold unw_line.
    replace (count + 1 + Z.of_nat i) with (count + Z.of_nat (S i)) by lia.
    done.
Qed.

(** X16: with libunwind, whatever the lookups give, a report is the PANIC
    line, the BACKTRACE line, and one line per caller, innermost first,
    numbered from 0, with the instruction pointer and the stack pointer of
    that caller and, as its name, what the buffer holds after the lookups
    for the callers up to and including it. *)
Theorem netatalk_panic_unwind_lines why s :
  HAVE_LIBUNWIND_H cfg = true →
  new_events s (netatalk_panic cfg why s)
  = panic_line why
    :: EvLOG log_severe logtype_default "BACKTRACE:" []
    :: imap (λ i fr,
               unw_line (Z.of_nat i) fr
                 (foldl buffer_after "<unknown>"
                    (take (S i) (unw_callers (machine s)))))
            (unw_callers (machine s)).
Proof.
  intros Hunw. rewrite netatalk_panic_events.
  unfold panic_lines. rewrite Hunw.
  by rewrite unw_lines_imap.
Qed.

End ReportLines.

(** ** The handler in the life of a process *)

Section HandlerInUse.

Variable cfg : Config.
Variable callback_effect : Z → Z → State → Z * gmap Z sigaction_t.

Lemma banner_count_internal_error sig m :
  count_if is_internal_error (banner cfg sig m) = 1%nat.
Proof. reflexivity. Qed.

Lemma banner_count_call sig m : count_if is_call (banner cfg sig m) = O.
Proof. reflexivity. Qed.

Lemma fault_report_trace sig s :
  trace (state_of (fault_report cfg callback_effect sig s))
  = trace s ++ new_events s (fault_report cfg callback_effect sig s).
Proof.
  rewrite fault_report_events, fault_report_eq.
  destruct (counter s =? 0); [destruct (cont_fn s =? NULL)|];
    cbn [state_of].
  - by rewrite app_nil_r.
  - rewrite !caught_trace. unfold continued, reported, continuation_events.
    cbn [state_of call trace emit emit_all set_sigtab set_cont_fn
         set_counter].
    by rewrite <- !app_assoc.
  - by rewrite app_nil_r.
Qed.

Lemma run_counter_mono calls s :
  counter s ≤ counter (state_of (run cfg callback_effect calls s)).
Proof.
  revert calls s.
  apply (run_respects cfg callback_effect (λ s1 s2, counter s1 ≤ counter s2)).
  - lia.
  - lia.
  - done.
  - intros c s. rewrite do_call_counter.
    destruct c; try lia. destruct (Z.eqb_spec (counter s) 0); lia.
Qed.

(** A kind of event that fault_setup and netatalk_panic never produce and a
    reporting fault_report produces at most once occurs at most once in
    the trace of a process that started without one. *)
Lemma run_at_most_once (p : Event → bool) :
  (∀ signum act, p (EvSigaction signum act) = false) →
  (∀ signum h, p (EvSignal signum h) = false) →
  (∀ m why, count_if p (panic_lines cfg m why) = O) →
  (∀ sig s, (count_if p (new_events s
                           (fault_report cfg callback_effect sig s))
             ≤ 1)%nat) →
  ∀ calls s,
    (count_if p (trace s) ≤ if (counter s =? 0)%Z then 0 else 1)%nat →
    (count_if p (trace (state_of (run cfg callback_effect calls s)))
     ≤ 1)%nat.
Proof.
  intros Hact Hsig Hpanic Hfault calls s Hs.
  assert (Hrun :
    (count_if p (trace (state_of (run cfg callback_effect calls s)))
     ≤ if (counter (state_of (run cfg callback_effect calls s)) =? 0)%Z
       then 0 else 1)%nat).
  { revert Hs. revert calls s.
    apply (run_respects cfg callback_effect
             (λ s1 s2,
                (count_if p (trace s1) ≤ if (counter s1 =? 0)%Z then 0 else 1)%nat
                → (count_if p (trace s2)
                   ≤ if (counter s2 =? 0)%Z then 0 else 1)%nat)).
    - auto.
    - auto.
    - done.
    - intros c s0 Hs0. rewrite do_call_counter.
      destruct c as [fn|why|sig]; cbn [do_call].
      + rewrite fault_setup_eq. cbn [state_of]. rewrite !caught_trace.
        cbn [trace set_cont_fn]. rewrite !count_if_app.
        rewrite !catch_events_count by done. lia.
      + rewrite netatalk_panic_eq. cbn [state_of trace emit_all].
        rewrite count_if_app, Hpanic. lia.
      + unfold sig_fault. rewrite fault_report_trace, count_if_app.
        pose proof (Hfault sig s0) as Hone.
        rewrite fault_report_events in *.
        destruct (counter s0 =? 0) eqn:Hc0; rewrite ?Hc0;
          cbn [count_if Z.eqb] in *; lia. }
  revert Hrun.
  destruct (counter (state_of (run cfg callback_effect calls s)) =? 0); lia.
Qed.

(** X11: in a process started afresh, whatever calls to fault_setup and
    netatalk_panic and whatever faults follow one another, fault.c logs at
    most one INTERNAL ERROR line and calls a continuation callback at most
    once. *)
Theorem fresh_process_reports_at_most_once calls m :
  (count_if is_internal_error
     (trace (state_of (run cfg callback_effect calls (initial_state m))))
   ≤ 1)%nat
  ∧ (count_if is_call
       (trace (state_of (run cfg callback_effect calls (initial_state m))))
     ≤ 1)%nat.
Proof.
  split.
  - apply run_at_most_once; [done|done| | |done].
    + intros. apply panic_lines_count_internal_error.
    + intros sig s. rewrite fault_report_events.
      destruct (counter s =? 0); [|cbn; lia].
      rewrite !count_if_app, banner_count_internal_error.
      unfold is_internal_error at 1.
      rewrite panic_lines_count_internal_error.
      destruct (cont_fn s =? NULL); [done|].
      by rewrite continuation_events_count.
  - apply run_at_most_once; [done|done| | |done].
    + intros. apply count_if_logs; [apply panic_lines_logs|done].
    + intros sig s. rewrite fault_report_events.
      destruct (counter s =? 0); [|cbn; lia].
      rewrite !count_if_app, banner_count_call.
      rewrite (count_if_logs is_call (panic_lines _ _ _))
        by (apply panic_lines_logs || done).
      destruct (cont_fn s =? NULL); [cbn; lia|].
      by rewrite continuation_events_calls.
Qed.

(** X12: once fault_report has run with the counter at 0, no later call of
    fault_setup or netatalk_panic and no later fault brings the reporting
    back: every later fault_report aborts at once and leaves the state, and
    so the trace, as it finds it. *)
Theorem handled_fault_disarms_for_good sig calls sig' s :
  counter s = 0 →
  fault_report cfg callback_effect sig'
    (state_of (run cfg callback_effect calls
                 (state_of (fault_report cfg callback_effect sig s))))
  = Aborts (state_of (run cfg callback_effect calls
                        (state_of (fault_report cfg callback_effect sig s)))).
Proof.
  intros Hc. rewrite fault_report_eq.
  pose proof (run_counter_mono calls
    (state_of (fault_report cfg callback_effect sig s))) as Hmono.
  rewrite fault_report_counter, Hc in Hmono. cbn [Z.eqb] in Hmono.
  destruct (Z.eqb_spec
    (counter (state_of (run cfg callback_effect calls
       (state_of (fault_report cfg callback_effect sig s))))) 0); [lia|done].
Qed.

(** X13: the callback a fault reaches is the one the latest fault_setup
    registered, whatever the slot held before: after fault_setup(NULL) a
    first fault aborts without a call, and after fault_setup(fn) with fn not
    null it returns after one call, which is fn(NULL). *)
Theorem fault_setup_decides_the_callback fn sig s :
  counter s = 0 →
  if fn =? NULL then
    aborted (fault_report cfg callback_effect sig
               (state_of (fault_setup cfg fn s))) = true
    ∧ count_if is_call
        (new_events (state_of (fault_setup cfg fn s))
           (fault_report cfg callback_effect sig
              (state_of (fault_setup cfg fn s)))) = O
  else
    aborted (fault_report cfg callback_effect sig
               (state_of (fault_setup cfg fn s))) = false
    ∧ ∃ before after,
        new_events (state_of (fault_setup cfg fn s))
          (fault_report cfg callback_effect sig
             (state_of (fault_setup cfg fn s)))
        = before ++ EvCall fn NULL :: after
        ∧ count_if is_call before = O
        ∧ count_if is_call after = O.
Proof.
  intros Hc. rewrite fault_report_events, fault_report_eq.
  rewrite fault_setup_eq. cbn [state_of].
  rewrite !caught_counter, !caught_cont_fn, !caught_machine.
  cbn [counter cont_fn machine set_cont_fn]. rewrite Hc. cbn [Z.eqb].
  assert (Hreport : ∀ m,
    count_if is_call (banner cfg sig m ++ panic_lines cfg m "internal error")
    = O).
  { intros m. apply count_if_logs; [|done].
    rewrite forallb_app. by rewrite panic_lines_logs. }
  destruct (fn =? NULL); cbn [aborted].
  - by rewrite app_nil_r, Hreport.
  - split; [done|]. unfold continuation_events.
    rewrite !caught_cont_fn. cbn [cont_fn set_cont_fn].
    eexists _, _. split_and!; [reflexivity|apply Hreport|].
    rewrite count_if_app. by rewrite !catch_events_count.
Qed.

(** X14: the signal number reaches nothing but the banner: for two signal
    numbers fault_report ends the same way, leaves the same counter, and
    logs and does the same, apart from the INTERNAL ERROR line. *)
Theorem fault_report_signal_only_in_banner sig1 sig2 s :
  aborted (fault_report cfg callback_effect sig1 s)
  = aborted (fault_report cfg callback_effect sig2 s)
  ∧ counter (state_of (fault_report cfg callback_effect sig1 s))
    = counter (state_of (fault_report cfg callback_effect sig2 s))
  ∧ take 1 (new_events s (fault_report cfg callback_effect sig1 s))
    = take 1 (new_events s (fault_report cfg callback_effect sig2 s))
  ∧ drop 2 (new_events s (fault_report cfg callback_effect sig1 s))
    = drop 2 (new_events s (fault_report cfg callback_effect sig2 s)).
Proof.
  rewrite !fault_report_counter, !fault_report_events, !fault_report_eq.
  destruct (counter s =? 0); [|done].
  by destruct (cont_fn s =? NULL).
Qed.

(** X15: on the callback path fault_report changes the disposition of the
    fatal signals only: every other signal ends with the disposition the
    callback left it with, and the callback slot holds what the callback
    left there. *)
Theorem fault_report_restores_fatal_signals_only sig signum s :
  counter s = 0 →
  cont_fn s ≠ NULL →
  SIGSEGV cfg ≠ Some signum →
  SIGBUS cfg ≠ Some signum →
  sigtab (state_of (fault_report cfg callback_effect sig s)) !! signum
  = (callback_effect (cont_fn s) NULL (reported cfg sig s)).2 !! signum
  ∧ cont_fn (state_of (fault_report cfg callback_effect sig s))
    = (callback_effect (cont_fn s) NULL (reported cfg sig s)).1.
Proof.
  intros Hc Hfn Hsegv Hbus. rewrite fault_report_eq, Hc.
  destruct (Z.eqb_spec (cont_fn s) NULL) as [|_]; [done|].
  cbn [Z.eqb state_of]. rewrite !caught_cont_fn. split; [|done].
  destruct (SIGBUS cfg) as [bus|] eqn:?, (SIGSEGV cfg) as [segv|] eqn:?;
    cbn [caught sigtab emit emit_all set_sigtab];
    rewrite ?lookup_insert_ne by congruence; done.
Qed.

End HandlerInUse.

(** ** The further properties at concrete processes *)

(** X1 for SIGBUS on a host without sigaction: sig_fault, then SIG_DFL. *)
Lemma CatchSignal_returns_previous_witness :
  (SIGSEGV host_bare = Some 10 ∨ SIGBUS host_bare = Some 10)
  ∧ ((∃ s1, CatchSignal host_bare 10 Ptr_sig_fault
              (initial_state machine_two_frames)
            = Returns
                (sa_handler
                   (disposition (initial_state machine_two_frames) 10))
                s1)
     ∧ (∃ s2, (CatchSignal host_bare 10 Ptr_sig_fault;;
               CatchSignal host_bare 10 SIG_DFL)
                (initial_state machine_two_frames)
              = Returns Ptr_sig_fault s2)
     ∧ sigtab (state_of
                 ((CatchSignal host_bare 10 Ptr_sig_fault;;
                   CatchSignal host_bare 10 Ptr_sig_fault)
                    (initial_state machine_two_frames)))
       = sigtab (state_of (CatchSignal host_bare 10 Ptr_sig_fault
                             (initial_state machine_two_frames)))).
Proof.
  split; [right; reflexivity|].
  apply (CatchSignal_returns_previous host_bare 10 Ptr_sig_fault SIG_DFL
           (initial_state machine_two_frames)).
  right. reflexivity.
Defined.

(** X2 at SIGSEGV, seen from SIGBUS. *)
Lemma CatchSignal_leaves_other_signals_witness :
  7 ≠ 11
  ∧ (disposition
       (state_of (CatchSignal host_libunwind 11 Ptr_sig_fault
                    (initial_state machine_two_frames))) 7
     = disposition (initial_state machine_two_frames) 7
     ∧ cont_fn (state_of (CatchSignal host_libunwind 11 Ptr_sig_fault
                            (initial_state machine_two_frames)))
       = cont_fn (initial_state machine_two_frames)
     ∧ counter (state_of (CatchSignal host_libunwind 11 Ptr_sig_fault
                            (initial_state machine_two_frames)))
       = counter (initial_state machine_two_frames)
     ∧ new_events (initial_state machine_two_frames)
         (CatchSignal host_libunwind 11 Ptr_sig_fault
            (initial_state machine_two_frames))
       = [catch_event host_libunwind 11 Ptr_sig_fault]).
Proof.
  split; [discriminate|].
  apply (CatchSignal_leaves_other_signals host_libunwind 11 Ptr_sig_fault 7
           (initial_state machine_two_frames)).
  discriminate.
Defined.

(** X3 on a host with sigaction, for SIGSEGV. *)
Lemma CatchSignal_blocks_its_signal_witness :
  HAVE_SIGACTION host_libunwind = true
  ∧ (SIGSEGV host_libunwind = Some 11 ∨ SIGBUS host_libunwind = Some 11)
  ∧ disposition
      (state_of (CatchSignal host_libunwind 11 Ptr_sig_fault
                   (initial_state machine_two_frames))) 11
    = {| sa_handler := Ptr_sig_fault; sa_mask := {[ 11 ]}; sa_flags := 0 |}.
Proof.
  split; [reflexivity|split; [left; reflexivity|]].
  apply (CatchSignal_blocks_its_signal host_libunwind 11 Ptr_sig_fault
           (initial_state machine_two_frames));
    [reflexivity|left; reflexivity].
Defined.

(** X4 for SIGBUS on a host without sigaction. *)
Lemma fault_setup_installs_witness :
  (SIGSEGV host_bare = Some 10 ∨ SIGBUS host_bare = Some 10)
  ∧ (aborted (fault_setup host_bare 5000 (initial_state machine_two_frames))
     = false
     ∧ cont_fn (state_of (fault_setup host_bare 5000
                            (initial_state machine_two_frames))) = 5000
     ∧ sa_handler
         (disposition
            (state_of (fault_setup host_bare 5000
                         (initial_state machine_two_frames))) 10)
       = Ptr_sig_fault).
Proof.
  split; [right; reflexivity|].
  apply (fault_setup_installs host_bare 5000 10
           (initial_state machine_two_frames)).
  right. reflexivity.
Defined.

(** X5 for signal 2, which is not a fatal one. *)
Lemma fault_setup_leaves_the_rest_witness :
  SIGSEGV host_libunwind ≠ Some 2
  ∧ SIGBUS host_libunwind ≠ Some 2
  ∧ (disposition
       (state_of (fault_setup host_libunwind 5000
                    (faulted_once host_libunwind 5000 machine_two_frames))) 2
     = disposition (faulted_once host_libunwind 5000 machine_two_frames) 2
     ∧ counter
         (state_of (fault_setup host_libunwind 5000
                      (faulted_once host_libunwind 5000 machine_two_frames)))
       = counter (faulted_once host_libunwind 5000 machine_two_frames)
     ∧ count_if is_log
         (new_events (faulted_once host_libunwind 5000 machine_two_frames)
            (fault_setup host_libunwind 5000
               (faulted_once host_libunwind 5000 machine_two_frames)))
       = O).
Proof.
  split; [discriminate|split; [discriminate|]].
  apply (fault_setup_leaves_the_rest host_libunwind 5000 2
           (faulted_once host_libunwind 5000 machine_two_frames));
    discriminate.
Defined.

(** X7 on a stack of 100 return addresses: 64 frame lines. *)
Lemma netatalk_panic_backtrace_report_witness :
  HAVE_LIBUNWIND_H host_backtrace = false
  ∧ HAVE_BACKTRACE host_backtrace = true
  ∧ symbols_available (machine (initial_state machine_deep)) = true
  ∧ new_events (initial_state machine_deep)
      (netatalk_panic host_backtrace "out of memory"
         (initial_state machine_deep))
    = panic_line "out of memory"
      :: EvLOG log_severe logtype_default "BACKTRACE: %d stack frames:"
           [ArgInt
              (Z.of_nat
                 (Nat.min 64
                    (length (return_addresses
                               (machine (initial_state machine_deep))))))]
      :: imap (λ i addr,
                 bt_line (Z.of_nat i)
                   (symbol_of (machine (initial_state machine_deep)) addr))
              (take 64 (return_addresses
                          (machine (initial_state machine_deep)))).
Proof.
  split; [reflexivity|split; [reflexivity|split; [reflexivity|]]].
  apply (netatalk_panic_backtrace_report host_backtrace "out of memory"
           (initial_state machine_deep));
    reflexivity.
Defined.

(** X8 on a process for which backtrace_symbols gives NULL. *)
Lemma netatalk_panic_backtrace_no_symbols_witness :
  HAVE_LIBUNWIND_H host_backtrace = false
  ∧ HAVE_BACKTRACE host_backtrace = true
  ∧ symbols_available (machine (initial_state machine_stripped)) = false
  ∧ new_events (initial_state machine_stripped)
      (netatalk_panic host_backtrace "out of memory"
         (initial_state machine_stripped))
    = [ panic_line "out of memory";
        EvLOG log_severe logtype_default "BACKTRACE: %d stack frames:"
          [ArgInt
             (Z.of_nat
                (Nat.min 64
                   (length (return_addresses
                              (machine (initial_state machine_stripped))))))]
      ].
Proof.
  split; [reflexivity|split; [reflexivity|split; [reflexivity|]]].
  apply (netatalk_panic_backtrace_no_symbols host_backtrace "out of memory"
           (initial_state machine_stripped));
    reflexivity.
Defined.

(** X9 on a stack of 65 callers with names. *)
Lemma netatalk_panic_unwind_report_witness :
  HAVE_LIBUNWIND_H host_libunwind = true
  ∧ forallb lookup_succeeds
      (unw_callers (machine (initial_state machine_deep))) = true
  ∧ new_events (initial_state machine_deep)
      (netatalk_panic host_libunwind "out of memory"
         (initial_state machine_deep))
    = panic_line "out of memory"
      :: EvLOG log_severe logtype_default "BACKTRACE:" []
      :: imap (λ i fr, unw_line (Z.of_nat i) fr (proc_name_of fr))
              (unw_callers (machine (initial_state machine_deep))).
Proof.
  split; [reflexivity|split; [reflexivity|]].
  apply (netatalk_panic_unwind_report host_libunwind "out of memory"
           (initial_state machine_deep));
    reflexivity.
Defined.

(** X10 on a stack of two callers without names. *)
Lemma netatalk_panic_unwind_placeholder_witness :
  HAVE_LIBUNWIND_H host_libunwind = true
  ∧ forallb lookup_leaves_buffer
      (unw_callers (machine (initial_state machine_stripped))) = true
  ∧ new_events (initial_state machine_stripped)
      (netatalk_panic host_libunwind "out of memory"
         (initial_state machine_stripped))
    = panic_line "out of memory"
      :: EvLOG log_severe logtype_default "BACKTRACE:" []
      :: imap (λ i fr, unw_line (Z.of_nat i) fr "<unknown>")
              (unw_callers (machine (initial_state machine_stripped))).
Proof.
  split; [reflexivity|split; [reflexivity|]].
  apply (netatalk_panic_unwind_placeholder host_libunwind "out of memory"
           (initial_state machine_stripped));
    reflexivity.
Defined.

(** X12 with a callback that installs sig_fault again, a further
    fault_setup and a report in between, and then a bus error. *)
Lemma handled_fault_disarms_for_good_witness :
  counter (set_up host_libunwind 5000 machine_two_frames) = 0
  ∧ fault_report host_libunwind (callback_reinstalls host_libunwind) 7
      (state_of
         (run host_libunwind (callback_reinstalls host_libunwind)
            [(machine_deep, Call_fault_setup 6000);
             (machine_deep, Call_netatalk_panic "again")]
            (state_of
               (fault_report host_libunwind
                  (callback_reinstalls host_libunwind) 11
                  (set_up host_libunwind 5000 machine_two_frames)))))
    = Aborts
        (state_of
           (run host_libunwind (callback_reinstalls host_libunwind)
              [(machine_deep, Call_fault_setup 6000);
               (machine_deep, Call_netatalk_panic "again")]
              (state_of
                 (fault_report host_libunwind
                    (callback_reinstalls host_libunwind) 11
                    (set_up host_libunwind 5000 machine_two_frames))))).
Proof.
  split; [reflexivity|].
  apply (handled_fault_disarms_for_good host_libunwind
           (callback_reinstalls host_libunwind) 11
           [(machine_deep, Call_fault_setup 6000);
            (machine_deep, Call_netatalk_panic "again")]
           7 (set_up host_libunwind 5000 machine_two_frames)).
  reflexivity.
Defined.

(** X13 where fault_setup(NULL) replaces a callback registered before. *)
Lemma fault_setup_decides_the_callback_witness :
  counter (set_up host_libunwind 5000 machine_two_frames) = 0
  ∧ (if NULL =? NULL then
       aborted
         (fault_report host_libunwind callback_plain 11
            (state_of (fault_setup host_libunwind NULL
                         (set_up host_libunwind 5000 machine_two_frames))))
       = true
       ∧ count_if is_call
           (new_events
              (state_of (fault_setup host_libunwind NULL
                           (set_up host_libunwind 5000 machine_two_frames)))
              (fault_report host_libunwind callback_plain 11
                 (state_of
                    (fault_setup host_libunwind NULL
                       (set_up host_libunwind 5000 machine_two_frames)))))
         = O
     else
       aborted
         (fault_report host_libunwind callback_plain 11
            (state_of (fault_setup host_libunwind NULL
                         (set_up host_libunwind 5000 machine_two_frames))))
       = false
       ∧ ∃ before after,
           new_events
             (state_of (fault_setup host_libunwind NULL
                          (set_up host_libunwind 5000 machine_two_frames)))
             (fault_report host_libunwind callback_plain 11
                (state_of
                   (fault_setup host_libunwind NULL
                      (set_up host_libunwind 5000 machine_two_frames))))
           = before ++ EvCall NULL NULL :: after
           ∧ count_if is_call before = O
           ∧ count_if is_call after = O).
Proof.
  split; [reflexivity|].
  apply (fault_setup_decides_the_callback host_libunwind callback_plain
           NULL 11 (set_up host_libunwind 5000 machine_two_frames)).
  reflexivity.
Defined.

(** X15 for signal 2 and a callback that returns at once. *)
Lemma fault_report_restores_fatal_signals_only_witness :
  counter (set_up host_libunwind 5000 machine_two_frames) = 0
  ∧ cont_fn (set_up host_libunwind 5000 machine_two_frames) ≠ NULL
  ∧ SIGSEGV host_libunwind ≠ Some 2
  ∧ SIGBUS host_libunwind ≠ Some 2
  ∧ (sigtab
       (state_of
          (fault_report host_libunwind callback_plain 11
             (set_up host_libunwind 5000 machine_two_frames))) !! 2
     = (callback_plain
          (cont_fn (set_up host_libunwind 5000 machine_two_frames)) NULL
          (reported host_libunwind 11
             (set_up host_libunwind 5000 machine_two_frames))).2 !! 2
     ∧ cont_fn
         (state_of
            (fault_report host_libunwind callback_plain 11
               (set_up host_libunwind 5000 machine_two_frames)))
       = (callback_plain
            (cont_fn (set_up host_libunwind 5000 machine_two_frames)) NULL
            (reported host_libunwind 11
               (set_up host_libunwind 5000 machine_two_frames))).1).
Proof.
  split; [reflexivity|].
  split; [discriminate|split; [discriminate|split; [discriminate|]]].
  apply (fault_report_restores_fatal_signals_only host_libunwind
           callback_plain 11 2
           (set_up host_libunwind 5000 machine_two_frames));
    [reflexivity|discriminate..].
Defined.

(** X16 on two callers, one with a name and one without. *)
Lemma netatalk_panic_unwind_lines_witness :
  HAVE_LIBUNWIND_H host_libunwind = true
  ∧ new_events (initial_state machine_two_frames)
      (netatalk_panic host_libunwind "out of memory"
         (initial_state machine_two_frames))
    = panic_line "out of memory"
      :: EvLOG log_severe logtype_default "BACKTRACE:" []
      :: imap (λ i fr,
                 unw_line (Z.of_nat i) fr
                   (foldl buffer_after "<unknown>"
                      (take (S i)
                         (unw_callers
                            (machine (initial_state machine_two_frames))))))
              (unw_callers (machine (initial_state machine_two_frames))).
Proof.
  split; [reflexivity|].
  apply (netatalk_panic_unwind_lines host_libunwind "out of memory"
           (initial_state machine_two_frames)).
  reflexivity.
Defined.
